(** * Altura booking backend: the two servers, embedded and verified

    The repository holds two realisations of one endpoint,
    [POST /api/booking]:

    - [server.js]        (module [Resend]): Resend send-API, one admin mail;
    - [server-secure.js] (module [Secure]): nodemailer SMTP transport,
      express-validator chain, a visitor mail and a company mail.

    Module [JS] holds the fragment of JavaScript both files rely on
    (values, truthiness, string conversion, [includes]); module [Express]
    the middleware both files mount, with the options each file passes. *)

From stdpp Require Import gmap strings list.
From Stdlib Require Import ZArith Ascii String Bool Lia.

Set Warnings "-register-all".
Open Scope string_scope.

(* ===================================================================== *)
(** ** JavaScript values as the handlers observe them                     *)
(* ===================================================================== *)

Module JS.

(** A value as [JSON.parse] builds it, plus [undefined] for a property
    that is not there.  A number is carried by its [Number::toString]
    rendering (["5"], ["0.5"], ["0"]; [-0] renders as ["0"]): the servers
    observe numbers only through string conversion and truthiness, and both
    are functions of that rendering. *)
Inductive Val : Type :=
  | VUndef
  | VNull
  | VBool (b : bool)
  | VNum (repr : string)
  | VStr (s : string)
  | VArr (items : list Val)
  | VObj (props : list (string * Val)).

(** An object literal / parsed JSON object: own properties in source order.
    A repeated key keeps its last value, as in [JSON.parse]. *)
Fixpoint getOwn (k : string) (ps : list (string * Val)) : option Val :=
  match ps with
  | [] => None
  | (k', v) :: rest =>
      match getOwn k rest with
      | Some w => Some w
      | None => if String.eqb k k' then Some v else None
      end
  end.

Definition hasOwn (k : string) (ps : list (string * Val)) : bool :=
  match getOwn k ps with Some _ => true | None => false end.

(** [const { k } = obj]: a missing property destructures to [undefined]. *)
Definition prop (k : string) (ps : list (string * Val)) : Val :=
  match getOwn k ps with Some v => v | None => VUndef end.

(** ToBoolean. *)
Definition truthy (v : Val) : bool :=
  match v with
  | VUndef | VNull => false
  | VBool b => b
  | VNum r => negb (String.eqb r "0" || String.eqb r "NaN")
  | VStr s => negb (String.eqb s "")
  | VArr _ | VObj _ => true
  end.

(** [a || b] on values. *)
Definition or (a b : Val) : Val := if truthy a then a else b.

(** Abrupt completions. *)
Inductive Error : Type :=
  | TypeError.

Inductive Completion (A : Type) : Type :=
  | Normal (a : A)
  | Throw (e : Error).
Arguments Normal {A} a.
Arguments Throw {A} e.

(** [String.prototype.includes]: [needle] occurs somewhere in [hay]. *)
Fixpoint includes (needle hay : string) : bool :=
  String.prefix needle hay ||
  match hay with
  | EmptyString => false
  | String _ rest => includes needle rest
  end.

(** [v.includes(arg)] for a string argument.  Strings search for a
    substring; arrays look for an element strictly equal to [arg]
    ([Array.prototype.includes]); every other value has no callable
    [includes] (numbers and booleans inherit none, a parsed object can only
    hold data under that key, [undefined] and [null] have no properties),
    so the call throws a [TypeError]. *)
Definition call_includes (v : Val) (arg : string) : Completion bool :=
  match v with
  | VStr s => Normal (includes arg s)
  | VArr items =>
      Normal (existsb (fun e => match e with
                                | VStr t => String.eqb t arg
                                | _ => false
                                end) items)
  | _ => Throw TypeError
  end.

(** ToString, as a template literal [`${v}`] applies it.  [None] stands for
    the [TypeError] that ToPrimitive raises on an object whose own
    [toString] property shadows the inherited method with data.  Arrays
    join their elements with a comma, [undefined] and [null] elements
    rendering as the empty string. *)
Fixpoint ToString (v : Val) : option string :=
  match v with
  | VUndef => Some "undefined"
  | VNull => Some "null"
  | VBool true => Some "true"
  | VBool false => Some "false"
  | VNum r => Some r
  | VStr s => Some s
  | VArr items =>
      let elem (e : Val) : option string :=
        match e with
        | VUndef | VNull => Some ""
        | _ => ToString e
        end in
      (fix join (l : list Val) : option string :=
         match l with
         | [] => Some ""
         | [e] => elem e
         | e :: rest =>
             match elem e, join rest with
             | Some s, Some t => Some (s ++ "," ++ t)
             | _, _ => None
             end
         end) items
  | VObj ps => if hasOwn "toString" ps then None else Some "[object Object]"
  end.

(** [process.env.X]: a string, or [undefined] when the variable is unset. *)
Definition env (o : option string) : Val :=
  match o with Some s => VStr s | None => VUndef end.

(** Pieces of a template literal once its holes have been converted. *)
Inductive Piece : Type :=
  | Lit (s : string)
  | Q                       (* one double-quote character *)
  | Hole (s : string).

Definition dq : string := String (ascii_of_nat 34) EmptyString.

Fixpoint template (ps : list Piece) : string :=
  match ps with
  | [] => ""
  | Lit s :: rest => s ++ template rest
  | Q :: rest => dq ++ template rest
  | Hole s :: rest => s ++ template rest
  end.

End JS.

(* ===================================================================== *)
(** ** The Express stack both servers mount                               *)
(* ===================================================================== *)

Module Express.
Import JS.

Inductive Method : Type := GET | POST | OPTIONS | OTHER.

(** A request addressed to [/api/booking] with a JSON body.  [now] is the
    clock reading (milliseconds) when the rate limiter sees the request,
    [ip] the client identity it is counted under, [bodyBytes] the length
    of the body on the wire and [body] what that body parses to. *)
Record Request (B : Type) : Type := mkRequest {
  method : Method;
  origin : option string;          (* the Origin header *)
  requestHeaders : option string;  (* Access-Control-Request-Headers *)
  ip : string;
  now : Z;
  bodyBytes : Z;
  body : B
}.
Arguments mkRequest {B}.
Arguments method {B}.
Arguments origin {B}.
Arguments requestHeaders {B}.
Arguments ip {B}.
Arguments now {B}.
Arguments bodyBytes {B}.
Arguments body {B}.

Inductive Body : Type :=
  | Json (v : Val)       (* res.json(v) / res.send(object) *)
  | Page                 (* the page Express's final handler writes *)
  | Empty.

Record Response : Type := mkResponse {
  status : nat;
  headers : list (string * string);
  content : Body
}.

(** The outbound mail collaborator: one message in, a delivery id or an
    error out ([await] resolves or rejects). *)
Record Mail : Type := mkMail {
  from : string;
  to : Val;
  replyTo : Val;     (* [VUndef] when the option is not given *)
  subject : string;
  html : string
}.

Inductive SendResult : Type :=
  | Delivered (id : string)
  | Failed (reason : string).

(** The collaborator as the handler meets it: the outcome of the [n]-th
    send of a request, given the message. *)
Definition Transport : Type := nat -> Mail -> SendResult.

(** What handling one request produced: the response, and every send that
    was attempted, in order, with its outcome. *)
Record Result : Type := mkResult {
  response : Response;
  sent : list (Mail * SendResult)
}.

Definition reply (code : nat) (b : Body) : Result :=
  mkResult (mkResponse code [] b) [].

Definition withHeaders (hs : list (string * string)) (r : Result) : Result :=
  mkResult (mkResponse (status (response r))
                       (hs ++ headers (response r))
                       (content (response r)))
           (sent r).

Fixpoint header (name : string) (hs : list (string * string)) : option string :=
  match hs with
  | [] => None
  | (k, v) :: rest => if String.eqb k name then Some v else header name rest
  end.

(** *** express-rate-limit, in-memory store

    The package is a dependency, not part of the repository's own code;
    the sources pass it [windowMs], [max] and [message] (server.js:22-31,
    server-secure.js:28-34). *)

Record Window : Type := mkWindow {
  hits : nat;
  resetTime : Z
}.

Abbreviation Store := (gmap string Window).

Definition windowMs : Z := 15 * 60 * 1000.
Definition max : nat := 5.

Definition expired (w : Window) (t : Z) : bool := (resetTime w <=? t)%Z.

(** Modelled from the spec: the counting step of the rate guard, which
    lives in the express-rate-limit package.  Section 4.1: one window per
    client identity; if the window for that identity is unset or expired,
    initialise it; increment its counter. *)
Definition increment (st : Store) (key : string) (t : Z) : Store * nat :=
  match st !! key with
  | Some w =>
      if expired w t
      then (<[key := mkWindow 1 (t + windowMs)]> st, 1)
      else (<[key := mkWindow (S (hits w)) (resetTime w)]> st, S (hits w))
  | None => (<[key := mkWindow 1 (t + windowMs)]> st, 1)
  end.

(** A request handler with access to the limiter's store. *)
Definition Handler (B : Type) : Type := Store -> Request B -> Store * Result.

(** Modelled from the spec: the rate guard's decision (express-rate-limit).
    Section 4.1: if the counter exceeds the ceiling, respond 429 with the
    configured message and do not forward; otherwise forward. *)
Definition rateLimit {B} (message : Val) (next : Request B -> Result)
  : Handler B :=
  fun st r =>
    let '(st', n) := increment st (ip r) (now r) in
    if Nat.ltb max n
    then (st', reply 429 (Json message))
    else (st', next r).

(** Requests handled one after the other, the store threaded through. *)
Fixpoint run {B} (h : Handler B) (st : Store) (rs : list (Request B))
  : Store * list Result :=
  match rs with
  | [] => (st, [])
  | r :: rest =>
      let '(st1, out) := h st r in
      let '(st2, outs) := run h st1 rest in
      (st2, out :: outs)
  end.

(** Six requests [r1 :: rs ++ [r6]] of one client inside one window: the
    client's window is unset or expired when [r1] arrives, and the five
    that follow arrive before the window opened by [r1] elapses. *)
Definition burst {B} (st : Store) (key : string)
  (r1 : Request B) (rs : list (Request B)) (r6 : Request B) : Prop :=
  (st !! key = None \/ exists w, st !! key = Some w /\ expired w (now r1) = true)
  /\ ip r1 = key
  /\ List.length rs = 4
  /\ Forall (fun r => ip r = key /\ (now r < now r1 + windowMs)%Z) (rs ++ [r6]).

(** *** cors

    The cors package is a dependency, not part of the repository's own
    code.  Its middleware decides response headers only: a preflight
    ([OPTIONS]) is answered on the spot with 204 and the headers that
    describe what is allowed; every other request continues down the stack
    whatever its origin, with [Access-Control-Allow-Origin] set to the
    wildcard when no origin option is given, or echoing the request's
    origin when that origin is on the configured list (and left out when
    it is not).  Turning away a cross-origin caller is left to the browser
    that reads these headers. *)

Inductive OriginOption : Type :=
  | AnyOrigin
  | Origins (allowed : list string).

Record CorsOptions : Type := mkCors {
  originOption : OriginOption;
  methods : list string;
  allowedHeaders : option (list string)
}.

(** [cors()] with no argument. *)
Definition corsDefaults : CorsOptions :=
  mkCors AnyOrigin ["GET"; "HEAD"; "PUT"; "PATCH"; "POST"; "DELETE"] None.

Definition isOriginAllowed (o : option string) (allowed : list string) : bool :=
  match o with
  | Some s => existsb (String.eqb s) allowed
  | None => false
  end.

Definition configureOrigin {B} (o : CorsOptions) (r : Request B)
  : list (string * string) :=
  match originOption o with
  | AnyOrigin => [("Access-Control-Allow-Origin", "*")]
  | Origins allowed =>
      match origin r with
      | Some s =>
          if isOriginAllowed (Some s) allowed
          then [("Access-Control-Allow-Origin", s); ("Vary", "Origin")]
          else [("Vary", "Origin")]
      | None => [("Vary", "Origin")]
      end
  end.

Definition configureMethods (o : CorsOptions) : list (string * string) :=
  [("Access-Control-Allow-Methods", String.concat "," (methods o))].

Definition configureAllowedHeaders {B} (o : CorsOptions) (r : Request B)
  : list (string * string) :=
  match allowedHeaders o with
  | Some hs =>
      match hs with
      | [] => []
      | _ => [("Access-Control-Allow-Headers", String.concat "," hs)]
      end
  | None =>
      ("Vary", "Access-Control-Request-Headers") ::
      match requestHeaders r with
      | Some h => if String.eqb h "" then []
                  else [("Access-Control-Allow-Headers", h)]
      | None => []
      end
  end.

Definition cors {B} (o : CorsOptions) (next : Handler B) : Handler B :=
  fun st r =>
    match method r with
    | OPTIONS =>
        (st, mkResult
               (mkResponse 204
                  (configureOrigin o r ++ configureMethods o ++
                   configureAllowedHeaders o r ++ [("Content-Length", "0")])
                  Empty)
               [])
    | _ =>
        let '(st', res) := next st r in
        (st', withHeaders (configureOrigin o r) res)
    end.

(** *** express.json

    The body parser is a dependency, not part of the repository's own
    code; the sources give it its [limit] (server-secure.js:24) or leave
    the package default of 100kb in place (server.js:11). *)

Definition kb (n : Z) : Z := n * 1024.

(** [express.json()] with no [limit] option. *)
Definition defaultLimit : Z := kb 100.

(** Modelled from the spec: the body-size guard, which lives in the body
    parser behind [express.json].  Section 4.1: a request body exceeding
    the ceiling is rejected with a client-error status (413, Payload Too
    Large) before parsing completes; nothing further down the stack runs. *)
Definition json {B} (limit : Z) (next : Handler B) : Handler B :=
  fun st r =>
    if (limit <? bodyBytes r)%Z
    then (st, reply 413 Page)
    else next st r.

(** *** app.post: the route answers POST only; any other method falls off
    the end of the stack and the final handler answers 404. *)
Definition post {B} (route : Handler B) : Handler B :=
  fun st r =>
    match method r with
    | POST => route st r
    | _ => (st, reply 404 Page)
    end.

(** An exception that escapes a synchronous middleware reaches the final
    handler, which answers 500. *)
Definition uncaught (e : Error) : Result := reply 500 Page.

(** The process after its top-level code has run: gone, or listening with
    the stack it serves requests through. *)
Inductive Process (B : Type) : Type :=
  | Exited (code : nat)
  | Listening (port : Val) (serve : Handler B).
Arguments Exited {B} code.
Arguments Listening {B} port serve.

End Express.

(* ===================================================================== *)
(** ** server.js: the Resend variant                                      *)
(* ===================================================================== *)

Module Resend.
Import JS Express.

(** [process.env] as server.js reads it. *)
Record Env : Type := mkEnv {
  RESEND_API_KEY : option string;
  FROM_EMAIL : option string;
  ADMIN_EMAIL : option string;
  PORT : option string
}.

(** server.js:22-31 *)
Definition limiterMessage : Val :=
  VObj [("error", VStr "Too many booking requests. Please try again later.");
        ("retryAfter", VStr "15 minutes")].

(** What a middleware does with a request: answer it, or call [next()]. *)
Inductive Step : Type :=
  | Next
  | Respond (code : nat) (v : Val).

(** server.js:34-46 *)
Definition validateBooking (b : list (string * Val)) : Completion Step :=
  let fullName := prop "fullName" b in
  let email := prop "email" b in
  let serviceType := prop "serviceType" b in
  let preferredDate := prop "preferredDate" b in
  let preferredTime := prop "preferredTime" b in
  if negb (truthy fullName) || negb (truthy email) || negb (truthy serviceType)
     || negb (truthy preferredDate) || negb (truthy preferredTime)
  then Normal (Respond 400 (VObj [("error", VStr "Missing required fields")]))
  else
    match call_includes email "@" with
    | Throw e => Throw e
    | Normal false =>
        Normal (Respond 400 (VObj [("error", VStr "Invalid email format")]))
    | Normal true => Normal Next
    end.


Definition isString (v : Val) : bool :=
  match v with VStr _ => true | _ => false end.

(** Values on which [.includes] is not a function. *)
Definition lacksIncludes (v : Val) : bool :=
  match v with
  | VNum _ | VBool _ | VObj _ => true
  | _ => false
  end.

(** An unset or empty environment variable. *)
Definition unset (o : option string) : Prop := o = None \/ o = Some "".

(** server.js:56-76 *)
Definition adminHtml
  (fullName email phone organization serviceType preferredDate preferredTime
   notes : string) : string :=
  template [
    Lit "
        <div style="; Q; Lit "font-family: Arial, sans-serif; max-width: 600px; margin: 0 auto;"; Q; Lit ">
          <h2 style="; Q; Lit "color: #0d9488; border-bottom: 2px solid #0d9488; padding-bottom: 10px;"; Q; Lit ">
            New Consultation Booking
          </h2>
          
          <div style="; Q; Lit "background: #f8fafc; padding: 20px; border-radius: 8px; margin: 20px 0;"; Q; Lit ">
            <p><strong>Client:</strong> ";
    Hole fullName;
    Lit "</p>
            <p><strong>Email:</strong> ";
    Hole email;
    Lit "</p>
            <p><strong>Phone:</strong> ";
    Hole phone;
    Lit "</p>
            <p><strong>Organization:</strong> ";
    Hole organization;
    Lit "</p>
            <p><strong>Service:</strong> ";
    Hole serviceType;
    Lit "</p>
            <p><strong>Schedule:</strong> ";
    Hole preferredDate;
    Lit " at ";
    Hole preferredTime;
    Lit "</p>
            <p><strong>Notes:</strong> ";
    Hole notes;
    Lit "</p>
          </div>
          
          <p style="; Q; Lit "color: #64748b; font-size: 14px;"; Q; Lit ">
            This booking was submitted via the Altura Health website contact form.
          </p>
        </div>
      "
  ].

(** server.js:52-77, the argument of [resend.emails.send].  [None] when one
    of the template literals throws while converting a field. *)
Definition adminMail (env : Env) (b : list (string * Val)) : option Mail :=
  let fullName := prop "fullName" b in
  let email := prop "email" b in
  let phone := prop "phone" b in
  let organization := prop "organization" b in
  let serviceType := prop "serviceType" b in
  let preferredDate := prop "preferredDate" b in
  let preferredTime := prop "preferredTime" b in
  let notes := prop "notes" b in
  sender ← ToString (JS.env (FROM_EMAIL env));
  name ← ToString fullName;
  h_email ← ToString email;
  h_phone ← ToString (or phone (VStr "Not provided"));
  h_organization ← ToString (or organization (VStr "Not provided"));
  h_serviceType ← ToString serviceType;
  h_preferredDate ← ToString preferredDate;
  h_preferredTime ← ToString preferredTime;
  h_notes ← ToString (or notes (VStr "None"));
  Some {| from := template [Lit "Altura Health <"; Hole sender; Lit ">"];
          to := VArr [JS.env (ADMIN_EMAIL env)];
          replyTo := VUndef;
          subject := template [Lit "New Booking Request: "; Hole name];
          html := adminHtml name h_email h_phone h_organization h_serviceType
                            h_preferredDate h_preferredTime h_notes |}.

(** server.js:84-89 *)
Definition sendFailure : Response :=
  mkResponse 500 []
    (Json (VObj [("error",
       VStr "Failed to send booking. Please try again or contact us directly.")])).

(** server.js:48-90, the route's last handler. *)
Definition booking (env : Env) (send : Transport) (b : list (string * Val))
  : Result :=
  match adminMail env b with
  | None => mkResult sendFailure []
  | Some m =>
      match send 0 m with
      | Delivered id =>
          mkResult
            (mkResponse 200 []
               (Json (VObj [("message", VStr "Booking submitted successfully");
                            ("id", VStr id);
                            ("status", VStr "confirmed")])))
            [(m, Delivered id)]
      | Failed reason => mkResult sendFailure [(m, Failed reason)]
      end
  end.

(** [validateBooking, async (req, res) => ...]: what runs once the limiter
    has let the request through. *)
Definition validated (env : Env) (send : Transport)
  (r : Request (list (string * Val))) : Result :=
  match validateBooking (body r) with
  | Throw e => uncaught e
  | Normal (Respond code v) => reply code (Json v)
  | Normal Next => booking env send (body r)
  end.

(** server.js:48, [app.post('/api/booking', limiter, validateBooking, ...)] *)
Definition route (env : Env) (send : Transport)
  : Handler (list (string * Val)) :=
  rateLimit limiterMessage (validated env send).

(** server.js:10-11 and 48: the stack a request to [/api/booking] crosses. *)
Definition app (env : Env) (send : Transport)
  : Handler (list (string * Val)) :=
  cors corsDefaults (json defaultLimit (post (route env send))).

(** server.js:13-17 and 97-98: the environment check comes before
    [app.listen], and [process.exit(1)] ends the process there. *)
Definition main (env : Env) (send : Transport)
  : Process (list (string * Val)) :=
  if negb (truthy (JS.env (RESEND_API_KEY env)))
     || negb (truthy (JS.env (FROM_EMAIL env)))
     || negb (truthy (JS.env (ADMIN_EMAIL env)))
  then Exited 1
  else Listening (or (JS.env (PORT env)) (VNum "5000")) (app env send).

End Resend.

(* ===================================================================== *)
(** ** server-secure.js: the SMTP variant                                 *)
(* ===================================================================== *)

Module Secure.
Import JS Express.

(** [process.env] as server-secure.js reads it. *)
Record Env : Type := mkEnv {
  EMAIL_USER : option string;
  EMAIL_PASS : option string;
  RECEIVER_EMAIL : option string;
  PORT : option string
}.

(** The submitted fields as the validation chain receives them: the text
    of each field, [None] for a field that is not in the payload. *)
Record Form : Type := mkForm {
  fullName : option string;
  email : option string;
  phone : option string;
  organization : option string;
  serviceType : option string;
  preferredDate : option string;
  preferredTime : option string;
  notes : option string
}.

(** One entry of [errors.array()]. *)
Record FieldError : Type := mkFieldError {
  path : string;
  msg : string;
  value : string
}.

(** [req.body] once the chain has run. *)
Record Sanitized : Type := mkSanitized {
  s_fullName : string;
  s_email : option string;   (* [None]: [normalizeEmail] gave [false] *)
  s_phone : string;
  s_organization : string;
  s_serviceType : string;
  s_preferredDate : string;
  s_preferredTime : string;
  s_notes : string
}.

(** server-secure.js:16-21 *)
Definition corsOptions : CorsOptions :=
  mkCors (Origins ["http://localhost:5178"; "http://192.168.100.12:5178"])
         ["POST"]
         (Some ["Content-Type"]).

(** server-secure.js:24 *)
Definition bodyLimit : Z := kb 10.

(** server-secure.js:28-34 *)
Definition limiterMessage : Val :=
  VObj [("error",
    VStr "Too many booking requests from this IP, please try again after 15 minutes.")].

(** server-secure.js:87-126 *)
Definition visitorEmail
  (fullName serviceType preferredDate preferredTime : string) : string :=
  template [
    Lit "
      <div style="; Q; Lit "font-family: Arial, sans-serif; max-width: 600px; margin: 0 auto; padding: 20px;"; Q; Lit ">
        <div style="; Q; Lit "background: linear-gradient(135deg, #0f172a 0%, #1e293b 50%, #0f172a 100%); padding: 30px; border-radius: 10px; text-align: center;"; Q; Lit ">
          <h1 style="; Q; Lit "color: #fff; margin: 0; font-size: 2rem;"; Q; Lit ">ALTURA</h1>
          <p style="; Q; Lit "color: #14b8a6; margin: 10px 0 0 0; font-size: 1.2rem;"; Q; Lit ">Health Strategies</p>
        </div>
        
        <div style="; Q; Lit "background: #f8fafc; padding: 30px; border-radius: 10px; margin: 20px 0;"; Q; Lit ">
          <h2 style="; Q; Lit "color: #0f766e; margin-bottom: 20px;"; Q; Lit ">Booking Confirmed! 🎉</h2>
          <p style="; Q; Lit "color: #1e293b; line-height: 1.6;"; Q; Lit ">
            Dear <strong>";
    Hole fullName;
    Lit "</strong>,
          </p>
          <p style="; Q; Lit "color: #1e293b; line-height: 1.6;"; Q; Lit ">
            Thank you for choosing Altura Health Strategies! Your consultation booking has been successfully confirmed.
          </p>
          
          <div style="; Q; Lit "background: #e0f2fe; padding: 20px; border-radius: 8px; margin: 20px 0; border-left: 4px solid #0284c7;"; Q; Lit ">
            <h3 style="; Q; Lit "color: #0284c7; margin: 0 0 10px 0;"; Q; Lit ">Your Booking Details:</h3>
            <p style="; Q; Lit "margin: 5px 0;"; Q; Lit "><strong>Service:</strong> ";
    Hole serviceType;
    Lit "</p>
            <p style="; Q; Lit "margin: 5px 0;"; Q; Lit "><strong>Date:</strong> ";
    Hole preferredDate;
    Lit "</p>
            <p style="; Q; Lit "margin: 5px 0;"; Q; Lit "><strong>Time:</strong> ";
    Hole preferredTime;
    Lit "</p>
          </div>
          
          <p style="; Q; Lit "color: #1e293b; line-height: 1.6;"; Q; Lit ">
            Our team will review your booking and contact you shortly to confirm all details and answer any questions you may have.
          </p>
          
          <div style="; Q; Lit "text-align: center; margin: 30px 0;"; Q; Lit ">
            <p style="; Q; Lit "color: #64748b; font-size: 0.9rem;"; Q; Lit ">
              For immediate assistance, please contact us at:<br>
              📧 mamlinjohn@gmail.com
            </p>
          </div>
        </div>
        
        <div style="; Q; Lit "text-align: center; color: #64748b; font-size: 0.8rem; margin-top: 20px;"; Q; Lit ">
          <p>© 2024 Altura Health Strategies. All rights reserved.</p>
        </div>
      </div>
    "
  ].

(** server-secure.js:129-151 *)
Definition companyEmail
  (fullName email phone organization serviceType preferredDate preferredTime
   notes : string) : string :=
  template [
    Lit "
      <div style="; Q; Lit "font-family: sans-serif; color: #1e293b; max-width: 600px;"; Q; Lit ">
        <h2 style="; Q; Lit "color: #0f766e;"; Q; Lit ">📋 New Consultation Booking</h2>
        <table style="; Q; Lit "width: 100%; border-collapse: collapse; text-align: left; margin-top: 20px;"; Q; Lit ">
          <thead>
            <tr style="; Q; Lit "background-color: #f1f5f9;"; Q; Lit ">
              <th style="; Q; Lit "border: 1px solid #cbd5e1; padding: 12px; width: 30%;"; Q; Lit ">Field</th>
              <th style="; Q; Lit "border: 1px solid #cbd5e1; padding: 12px;"; Q; Lit ">Client Data</th>
            </tr>
          </thead>
          <tbody>
            <tr><td style="; Q; Lit "border: 1px solid #cbd5e1; padding: 10px;"; Q; Lit "><strong>Name</strong></td><td style="; Q; Lit "border: 1px solid #cbd5e1; padding: 10px;"; Q; Lit ">";
    Hole fullName;
    Lit "</td></tr>
            <tr><td style="; Q; Lit "border: 1px solid #cbd5e1; padding: 10px;"; Q; Lit "><strong>Email</strong></td><td style="; Q; Lit "border: 1px solid #cbd5e1; padding: 10px;"; Q; Lit ">";
    Hole email;
    Lit "</td></tr>
            <tr><td style="; Q; Lit "border: 1px solid #cbd5e1; padding: 10px;"; Q; Lit "><strong>Phone</strong></td><td style="; Q; Lit "border: 1px solid #cbd5e1; padding: 10px;"; Q; Lit ">";
    Hole phone;
    Lit "</td></tr>
            <tr><td style="; Q; Lit "border: 1px solid #cbd5e1; padding: 10px;"; Q; Lit "><strong>Organization</strong></td><td style="; Q; Lit "border: 1px solid #cbd5e1; padding: 10px;"; Q; Lit ">";
    Hole organization;
    Lit "</td></tr>
            <tr><td style="; Q; Lit "border: 1px solid #cbd5e1; padding: 10px;"; Q; Lit "><strong>Service</strong></td><td style="; Q; Lit "border: 1px solid #cbd5e1; padding: 10px;"; Q; Lit ">";
    Hole serviceType;
    Lit "</td></tr>
            <tr><td style="; Q; Lit "border: 1px solid #cbd5e1; padding: 10px;"; Q; Lit "><strong>Date</strong></td><td style="; Q; Lit "border: 1px solid #cbd5e1; padding: 10px;"; Q; Lit ">";
    Hole preferredDate;
    Lit "</td></tr>
            <tr><td style="; Q; Lit "border: 1px solid #cbd5e1; padding: 10px;"; Q; Lit "><strong>Time</strong></td><td style="; Q; Lit "border: 1px solid #cbd5e1; padding: 10px;"; Q; Lit ">";
    Hole preferredTime;
    Lit "</td></tr>
            <tr><td style="; Q; Lit "border: 1px solid #cbd5e1; padding: 10px;"; Q; Lit "><strong>Notes</strong></td><td style="; Q; Lit "border: 1px solid #cbd5e1; padding: 10px;"; Q; Lit ">";
    Hole notes;
    Lit "</td></tr>
          </tbody>
        </table>
      </div>
    "
  ].

(** server-secure.js:176-180 *)
Definition sendFailure : Response :=
  mkResponse 500 []
    (Json (VObj [("error",
       VStr "Failed to process booking. Please try again later.")])).

(** A field that is not in the payload reads as the empty string. *)
Definition text (o : option string) : string :=
  match o with Some s => s | None => "" end.

(** [notEmpty()] *)
Definition notEmpty (s : string) : bool := negb (String.eqb s "").

(** [x || fallback] on strings. *)
Definition orElse (x fallback : string) : string :=
  if String.eqb x "" then fallback else x.

(** [`${process.env.X}`] *)
Definition envText (o : option string) : string :=
  match o with Some s => s | None => "undefined" end.

(** [`${email}`] after the chain: the normalised address, or [false]. *)
Definition emailText (o : option string) : string :=
  match o with Some s => s | None => "false" end.

Definition emailVal (o : option string) : Val :=
  match o with Some s => VStr s | None => VBool false end.

Definition check (p m v : string) (ok : bool) : list FieldError :=
  if ok then [] else [mkFieldError p m v].

Definition errorVal (e : FieldError) : Val :=
  VObj [("type", VStr "field"); ("value", VStr (value e));
        ("msg", VStr (msg e)); ("path", VStr (path e));
        ("location", VStr "body")].

Section Chain.

(** The string functions of the validator package that the chain calls.
    Their code is not part of the repository; the chain is stated over any
    four functions of these types.  [normalizeEmail] answers [None] where the
    package answers [false]. *)
Variable trim : string -> string.
Variable escape : string -> string.
Variable isEmail : string -> bool.
Variable normalizeEmail : string -> option string.

(** server-secure.js:60-70, the validators: what [validationResult(req)]
    collects, in chain order. *)
Definition errors (f : Form) : list FieldError :=
  check "fullName" "Name is required" (trim (text (fullName f)))
        (notEmpty (trim (text (fullName f)))) ++
  check "email" "Valid email is required" (text (email f))
        (isEmail (text (email f))) ++
  check "serviceType" "Service type is required" (trim (text (serviceType f)))
        (notEmpty (trim (text (serviceType f)))) ++
  check "preferredDate" "Invalid value" (trim (text (preferredDate f)))
        (notEmpty (trim (text (preferredDate f)))) ++
  check "preferredTime" "Invalid value" (trim (text (preferredTime f)))
        (notEmpty (trim (text (preferredTime f)))).

(** server-secure.js:60-70, the sanitizers: what the chain writes back. *)
Definition sanitize (f : Form) : Sanitized :=
  {| s_fullName := escape (trim (text (fullName f)));
     s_email := normalizeEmail (text (email f));
     s_phone := escape (trim (text (phone f)));
     s_organization := escape (trim (text (organization f)));
     s_serviceType := escape (trim (text (serviceType f)));
     s_preferredDate := escape (trim (text (preferredDate f)));
     s_preferredTime := escape (trim (text (preferredTime f)));
     s_notes := escape (trim (text (notes f))) |}.


(** server-secure.js:158-163 *)
Definition visitorMail (env : Env) (c : Sanitized) : Mail :=
  {| from := template [Q; Lit "Altura Booking System"; Q; Lit " <";
                       Hole (envText (EMAIL_USER env)); Lit ">"];
     to := emailVal (s_email c);
     replyTo := VUndef;
     subject := template [Lit "Booking Confirmation: "; Hole (s_fullName c);
                          Lit " - ";
                          Hole (orElse (s_organization c) "Individual")];
     html := visitorEmail (s_fullName c) (s_serviceType c)
                          (s_preferredDate c) (s_preferredTime c) |}.

(** server-secure.js:166-172 *)
Definition companyMail (env : Env) (c : Sanitized) : Mail :=
  {| from := template [Q; Lit "Altura Booking System"; Q; Lit " <";
                       Hole (envText (EMAIL_USER env)); Lit ">"];
     to := JS.env (RECEIVER_EMAIL env);
     replyTo := emailVal (s_email c);
     subject := template [Lit "📋 New Booking: "; Hole (s_fullName c);
                          Lit " - ";
                          Hole (orElse (s_organization c) "Individual")];
     html := companyEmail (s_fullName c) (emailText (s_email c))
                          (orElse (s_phone c) "N/A")
                          (orElse (s_organization c) "N/A")
                          (s_serviceType c) (s_preferredDate c)
                          (s_preferredTime c) (orElse (s_notes c) "N/A") |}.

(** server-secure.js:71-181, the route's last handler. *)
Definition booking (env : Env) (send : Transport) (f : Form) : Result :=
  match errors f with
  | _ :: _ =>
      reply 400 (Json (VObj [("error", VStr "Invalid input data");
                             ("details", VArr (map errorVal (errors f)))]))
  | [] =>
      let c := sanitize f in
      let m1 := visitorMail env c in
      match send 0 m1 with
      | Failed reason => mkResult sendFailure [(m1, Failed reason)]
      | Delivered id1 =>
          let m2 := companyMail env c in
          match send 1 m2 with
          | Failed reason =>
              mkResult sendFailure [(m1, Delivered id1); (m2, Failed reason)]
          | Delivered id2 =>
              mkResult
                (mkResponse 200 []
                   (Json (VObj [("message",
                      VStr "Booking confirmed! Check your email for confirmation.")])))
                [(m1, Delivered id1); (m2, Delivered id2)]
          end
      end
  end.

(** server-secure.js:58-59, [app.post('/api/booking', bookingLimiter, ...)] *)
Definition route (env : Env) (send : Transport) : Handler Form :=
  rateLimit limiterMessage (fun r => booking env send (body r)).

(** server-secure.js:14-24 and 58: the stack a request to [/api/booking]
    crosses ([helmet()] adds response headers only and is left out). *)
Definition app (env : Env) (send : Transport) : Handler Form :=
  cors corsOptions (json bodyLimit (post (route env send))).

(** server-secure.js:36-52 and 184-196: [transporter.verify] only logs
    what it finds; [app.listen] runs whatever the environment holds. *)
Definition main (env : Env) (send : Transport) : Process Form :=
  Listening (or (JS.env (PORT env)) (VNum "5000")) (app env send).

End Chain.

End Secure.

(* ===================================================================== *)
(** ** Concrete collaborators and payloads                                *)
(* ===================================================================== *)

(** Stand-ins that let the chain of server-secure.js run on concrete
    forms: whitespace trimming, the entity table of [escape], and a
    deliberately crude address test.  The theorems below do not depend on
    them; they hold for every choice of the four functions. *)
Module Sample.
Import JS Express.

Definition isSpace (c : ascii) : bool :=
  let n := nat_of_ascii c in
  (Nat.leb 9 n && Nat.leb n 13) || Nat.eqb n 32.

Fixpoint ltrim (s : string) : string :=
  match s with
  | EmptyString => EmptyString
  | String c rest => if isSpace c then ltrim rest else s
  end.

Fixpoint rtrim (s : string) : string :=
  match s with
  | EmptyString => EmptyString
  | String c rest =>
      match rtrim rest with
      | EmptyString => if isSpace c then EmptyString else String c EmptyString
      | kept => String c kept
      end
  end.

Definition trim (s : string) : string := rtrim (ltrim s).

Definition entity (c : ascii) : string :=
  let n := nat_of_ascii c in
  if Nat.eqb n 38 then "&amp;"
  else if Nat.eqb n 34 then "&quot;"
  else if Nat.eqb n 39 then "&#x27;"
  else if Nat.eqb n 60 then "&lt;"
  else if Nat.eqb n 62 then "&gt;"
  else if Nat.eqb n 47 then "&#x2F;"
  else if Nat.eqb n 92 then "&#x5C;"
  else if Nat.eqb n 96 then "&#96;"
  else String c EmptyString.

Fixpoint escape (s : string) : string :=
  match s with
  | EmptyString => EmptyString
  | String c rest => entity c ++ escape rest
  end.

Definition isEmail (s : string) : bool := includes "@" s.

Definition normalizeEmail (s : string) : option string := Some s.


(** Transports. *)
Definition delivering : Transport := fun n _ =>
  Delivered (if Nat.eqb n 0 then "msg-1" else "msg-2").

Definition failing : Transport := fun _ _ => Failed "ECONNREFUSED smtp.gmail.com:465".

Definition failingSecond : Transport := fun n _ =>
  if Nat.eqb n 0 then Delivered "msg-1" else Failed "550 mailbox unavailable".

(** Environments. *)
Definition resendEnv : Resend.Env :=
  Resend.mkEnv (Some "re_test_key") (Some "bookings@altura.example")
               (Some "admin@altura.example") None.

Definition secureEnv : Secure.Env :=
  Secure.mkEnv (Some "bookings@altura.example") (Some "app-password")
               (Some "admin@altura.example") None.

Definition unconfigured : Secure.Env := Secure.mkEnv None None None None.

(** The payload of the spec's worked example, for either server. *)
Definition jane : list (string * Val) :=
  [("fullName", VStr "Jane Doe"); ("email", VStr "jane@x.com");
   ("serviceType", VStr "Consult"); ("preferredDate", VStr "2025-01-10");
   ("preferredTime", VStr "10:00")].

Definition janeForm : Secure.Form :=
  Secure.mkForm (Some "Jane Doe") (Some "jane@x.com") None None
                (Some "Consult") (Some "2025-01-10") (Some "10:00") None.

(** The same booking with another name and another email value. *)
Definition booking (name address : Val) : list (string * Val) :=
  [("fullName", name); ("email", address);
   ("serviceType", VStr "Consult"); ("preferredDate", VStr "2025-01-10");
   ("preferredTime", VStr "10:00")].

(** A browser-style POST from one of the configured front-end origins. *)
Definition postFrom {B} (who : string) (o : string) (t : Z) (size : Z) (b : B)
  : Request B :=
  mkRequest POST (Some o) None who t size b.

Definition client : string := "203.0.113.7".
Definition neighbour : string := "198.51.100.23".

Definition frontend : string := "http://localhost:5178".
Definition elsewhere : string := "http://evil.example".

(** Six requests of [client] within fifteen minutes, and one of
    [neighbour] in between. *)
Definition first {B} (b : B) : Request B := postFrom client frontend 0 200 b.

Definition following {B} (b : B) : list (Request B) :=
  [postFrom client frontend 60000 200 b; postFrom client frontend 120000 200 b;
   postFrom client frontend 180000 200 b; postFrom client frontend 240000 200 b].

Definition sixth {B} (b : B) : Request B :=
  postFrom client frontend 899999 200 b.

Definition bystander {B} (b : B) : Request B :=
  postFrom neighbour frontend 300000 200 b.

(** The SMTP server wired to the stand-ins. *)
Definition secureApp (env : Secure.Env) (send : Transport)
  : Handler Secure.Form :=
  Secure.app trim escape isEmail normalizeEmail env send.

Definition secureBooking (env : Secure.Env) (send : Transport)
  (f : Secure.Form) : Result :=
  Secure.booking trim escape isEmail normalizeEmail env send f.

Definition secureRoute (env : Secure.Env) (send : Transport)
  : Handler Secure.Form :=
  Secure.route trim escape isEmail normalizeEmail env send.

(** An environment in which ADMIN_EMAIL was forgotten. *)
Definition noAdmin : Resend.Env :=
  Resend.mkEnv (Some "re_test_key") (Some "bookings@altura.example") None None.

(** A preflight from the front end, and oversized posts. *)
Definition preflight {B} (b : B) : Request B :=
  mkRequest OPTIONS (Some frontend) (Some "content-type") client 0 0 b.

Definition recipients (out : Result) : list Val :=
  map (fun call => to (fst call)) (sent out).



Definition scriptTag : string := "<script>alert(1)</script>".

End Sample.

(* ===================================================================== *)
(** ** The rest of the two files: health probe and routing                *)
(* ===================================================================== *)

Module Site.
Import JS Express.

(** Which of a server's routes the request path matches: the booking
    route, the health probe, or none. *)
Inductive Route : Type := Booking | HealthCheck | Unmatched.

(** [app.get]: the handler answers GET; any other method falls off the end
    of the stack.  ([OTHER] stands for methods that no route of either
    server answers.) *)
Definition get {B} (h : Handler B) : Handler B :=
  fun st r =>
    match method r with
    | GET => h st r
    | _ => (st, reply 404 Page)
    end.

Section Clock.

(** [new Date().toISOString()], as a function of the clock reading. *)
Variable toISOString : Z -> string.

(** server.js:93-95 *)
Definition resendHealth {B} (r : Request B) : Result :=
  reply 200 (Json (VObj [("status", VStr "Server is running");
                         ("timestamp", VStr (toISOString (now r)))])).

(** server-secure.js:184-194; [NODE_ENV] is [process.env.NODE_ENV]. *)
Definition secureHealth {B} (env : Secure.Env) (NODE_ENV : option string)
  (r : Request B) : Result :=
  reply 200 (Json (VObj [("status", VStr "Server is running");
                         ("timestamp", VStr (toISOString (now r)));
                         ("port", or (JS.env (Secure.PORT env)) (VNum "5000"));
                         ("environment",
                          or (JS.env NODE_ENV) (VStr "development"))])).

(** server.js:10-11, 48 and 93: everything the Resend server mounts. *)
Definition resend (env : Resend.Env) (send : Transport) (route : Route)
  : Handler (list (string * Val)) :=
  cors corsDefaults
    (json defaultLimit
       match route with
       | Booking => post (Resend.route env send)
       | HealthCheck => get (fun st r => (st, resendHealth r))
       | Unmatched => fun st _ => (st, reply 404 Page)
       end).

Section Chain.

Variable trim : string -> string.
Variable escape : string -> string.
Variable isEmail : string -> bool.
Variable normalizeEmail : string -> option string.

(** server-secure.js:14-24, 58 and 187: everything the SMTP server mounts
    ([helmet()] left out, as in [Secure.app]). *)
Definition secure (env : Secure.Env) (NODE_ENV : option string)
  (send : Transport) (route : Route) : Handler Secure.Form :=
  cors Secure.corsOptions
    (json Secure.bodyLimit
       match route with
       | Booking =>
           post (Secure.route trim escape isEmail normalizeEmail env send)
       | HealthCheck => get (fun st r => (st, secureHealth env NODE_ENV r))
       | Unmatched => fun st _ => (st, reply 404 Page)
       end).

End Chain.

End Clock.

End Site.

(* ===================================================================== *)
(** ** Vocabulary for the properties of whole requests                    *)
(* ===================================================================== *)

Module Outcome.
Import JS Express.


(** The properties [validateBooking] insists on, and the eight the handler
    of server.js reads. *)
Definition required : list string :=
  ["fullName"; "email"; "serviceType"; "preferredDate"; "preferredTime"].

Definition fields : list string :=
  ["fullName"; "email"; "phone"; "organization"; "serviceType";
   "preferredDate"; "preferredTime"; "notes"].

Definition allPresent (b : list (string * Val)) : bool :=
  forallb (fun k => truthy (prop k b)) required.


(** The only requests that get past the parser into the booking route. *)
Definition reachesRoute {B} (limit : Z) (route : Site.Route) (r : Request B)
  : Prop :=
  route = Site.Booking /\ method r = POST /\ (bodyBytes r <= limit)%Z.

(** Sample payloads for the edge cases below. *)
Definition noAt : list (string * Val) :=
  Sample.booking (VStr "Jane Doe") (VStr "jane.x.com").

Definition shadowed : list (string * Val) :=
  Sample.jane ++ [("notes", VObj [("toString", VNum "1")])].

Definition ping {B} (b : B) : Request B :=
  mkRequest GET None None Sample.client 450000 0 b.

Definition clock (t : Z) : string :=
  if (t =? 450000)%Z then "1970-01-01T00:07:30.000Z" else "1970-01-01T00:00:00.000Z".

Definition halfValid : Secure.Form :=
  Secure.mkForm (Some "Jane Doe") (Some "not-an-address") (Some "<b>")
                None (Some "  ") (Some "2025-01-10") None None.

End Outcome.

(* ===================================================================== *)
(** ** Properties                                                         *)
(* ===================================================================== *)

Import JS Express.

Arguments Secure.visitorEmail : simpl never.
Arguments Secure.companyEmail : simpl never.
Arguments Resend.adminHtml : simpl never.
Arguments template : simpl never.

(** *** Substrings of rendered templates *)

Lemma includes_unfold (needle hay : string) :
  includes needle hay =
    String.prefix needle hay ||
    match hay with
    | EmptyString => false
    | String _ rest => includes needle rest
    end.
Proof. by destruct hay. Qed.

Lemma prefix_app (s rest : string) : String.prefix s (s ++ rest) = true.
Proof.
  induction s as [|c s IH].
  - by destruct rest.
  - change (String c s ++ rest) with (String c (s ++ rest)).
    change (String.prefix (String c s) (String c (s ++ rest)))
      with (match ascii_dec c c with
            | left _ => String.prefix s (s ++ rest)
            | right _ => false
            end).
    by destruct (ascii_dec c c).
Qed.

Lemma includes_here (s rest : string) : includes s (s ++ rest) = true.
Proof. by rewrite includes_unfold, prefix_app. Qed.

Lemma includes_skip (before s hay : string) :
  includes s hay = true -> includes s (before ++ hay) = true.
Proof.
  intros H. induction before as [|c before IH]; [exact H|].
  change (String c before ++ hay) with (String c (before ++ hay)).
  rewrite includes_unfold, IH. apply orb_true_r.
Qed.

Lemma template_here (s : string) (rest : list Piece) :
  includes s (template (Hole s :: rest)) = true.
Proof. apply includes_here. Qed.

Lemma template_skip (p : Piece) (s : string) (rest : list Piece) :
  includes s (template rest) = true ->
  includes s (template (p :: rest)) = true.
Proof. intros H. destruct p; by apply includes_skip. Qed.

Ltac find_hole :=
  repeat first [ apply template_here | apply template_skip ].

(** *** The rate limiter *)

Section Limiter.

Context {B : Type} (message : Val) (next : Request B -> Result).

Lemma increment_other (st : Store) (key key' : string) (t : Z) :
  key <> key' -> fst (increment st key t) !! key' = st !! key'.
Proof.
  intros Hne. unfold increment.
  destruct (st !! key) as [w|]; [destruct (expired w t)|]; simpl;
    by rewrite lookup_insert_ne.
Qed.

Lemma increment_fresh (st : Store) (key : string) (t : Z) :
  (st !! key = None \/ exists w, st !! key = Some w /\ expired w t = true) ->
  increment st key t = (<[key := mkWindow 1 (t + windowMs)]> st, 1).
Proof.
  intros [Hnone | (w & Hw & Hexp)]; unfold increment.
  - by rewrite Hnone.
  - by rewrite Hw, Hexp.
Qed.

Lemma increment_live (st : Store) (key : string) (t : Z) (w : Window) :
  st !! key = Some w -> (t < resetTime w)%Z ->
  increment st key t =
    (<[key := mkWindow (S (hits w)) (resetTime w)]> st, S (hits w)).
Proof.
  intros Hw Hlt. unfold increment. rewrite Hw.
  unfold expired. destruct (Z.leb_spec (resetTime w) t); [lia | done].
Qed.

(** The limiter's verdict depends on the store only through the entry of
    the requesting client. *)
Lemma increment_local (st1 st2 : Store) (key : string) (t : Z) :
  st1 !! key = st2 !! key ->
  snd (increment st1 key t) = snd (increment st2 key t).
Proof.
  intros Heq. unfold increment. rewrite Heq.
  destruct (st2 !! key) as [w|]; [destruct (expired w t)|]; done.
Qed.

Lemma rateLimit_local (st1 st2 : Store) (r : Request B) :
  st1 !! ip r = st2 !! ip r ->
  snd (rateLimit message next st1 r) = snd (rateLimit message next st2 r).
Proof.
  intros Heq. unfold rateLimit.
  pose proof (increment_local st1 st2 (ip r) (now r) Heq) as Hn.
  destruct (increment st1 (ip r) (now r)) as [s1 n1].
  destruct (increment st2 (ip r) (now r)) as [s2 n2].
  simpl in Hn. subst n2. by destruct (Nat.ltb max n1).
Qed.

Lemma rateLimit_store (st : Store) (r : Request B) :
  fst (rateLimit message next st r) = fst (increment st (ip r) (now r)).
Proof.
  unfold rateLimit. destruct (increment st (ip r) (now r)) as [s n].
  by destruct (Nat.ltb max n).
Qed.

(** Inside a live window every further request of the client adds one. *)
Lemma run_counts (rs : list (Request B)) :
  forall (st : Store) (key : string) (w : Window),
    st !! key = Some w ->
    Forall (fun r => ip r = key /\ (now r < resetTime w)%Z) rs ->
    fst (run (rateLimit message next) st rs) !! key
      = Some (mkWindow (hits w + List.length rs) (resetTime w)).
Proof.
  induction rs as [|r rest IH]; intros st key w Hw Hall; simpl.
  - rewrite Hw. destruct w. simpl. f_equal. f_equal. lia.
  - inversion Hall as [|? ? [Hip Hlt] Hrest]; subst.
    destruct (rateLimit message next st r) as [st1 out] eqn:Hstep.
    destruct (run (rateLimit message next) st1 rest) as [st2 outs] eqn:Hrun.
    simpl.
    assert (Hst1 : st1 !! ip r = Some (mkWindow (S (hits w)) (resetTime w))).
    { pose proof (rateLimit_store st r) as Hs. rewrite Hstep in Hs.
      simpl in Hs. rewrite Hs, (increment_live _ _ _ w Hw Hlt). simpl.
      apply lookup_insert_eq. }
    specialize (IH st1 (ip r) _ Hst1 Hrest). rewrite Hrun in IH.
    simpl in IH. rewrite IH. f_equal. f_equal. lia.
Qed.

(** While the counter stays within the ceiling every request is handed to
    the rest of the route. *)
Lemma run_forwards (rs : list (Request B)) :
  forall (st : Store) (key : string) (w : Window),
    st !! key = Some w ->
    Forall (fun r => ip r = key /\ (now r < resetTime w)%Z) rs ->
    hits w + List.length rs <= max ->
    snd (run (rateLimit message next) st rs) = map next rs.
Proof.
  induction rs as [|r rest IH]; intros st key w Hw Hall Hmax; [done|].
  inversion Hall as [|? ? [Hip Hlt] Hrest]; subst.
  cbn [List.length] in Hmax. cbn [run map].
  destruct (rateLimit message next st r) as [st1 out] eqn:Hstep.
  destruct (run (rateLimit message next) st1 rest) as [st2 outs] eqn:Hrun.
  cbn [snd].
  assert (Hst1 : st1 !! ip r = Some (mkWindow (S (hits w)) (resetTime w))).
  { pose proof (rateLimit_store st r) as Hs. rewrite Hstep in Hs.
    simpl in Hs. rewrite Hs, (increment_live _ _ _ w Hw Hlt). simpl.
    apply lookup_insert_eq. }
  assert (Hout : out = next r).
  { unfold rateLimit in Hstep.
    rewrite (increment_live _ _ _ w Hw Hlt) in Hstep.
    destruct (Nat.ltb_spec max (S (hits w))); [lia|]. congruence. }
  specialize (IH st1 (ip r) _ Hst1 Hrest). rewrite Hrun in IH.
  cbn [snd hits resetTime] in IH. rewrite IH, Hout; [done|lia].
Qed.

Lemma burst_forwards (st : Store) (key : string)
  (r1 : Request B) (rs : list (Request B)) (r6 : Request B) :
  burst st key r1 rs r6 ->
  snd (run (rateLimit message next) st (r1 :: rs)) = map next (r1 :: rs).
Proof.
  intros (Hfresh & Hip & Hlen & Hall). subst key.
  apply Forall_app in Hall as [Hrs _].
  cbn [run map].
  destruct (rateLimit message next st r1) as [st1 out] eqn:Hstep.
  destruct (run (rateLimit message next) st1 rs) as [st2 outs] eqn:Hrun.
  cbn [snd].
  assert (Hst1 : st1 !! ip r1 = Some (mkWindow 1 (now r1 + windowMs))).
  { pose proof (rateLimit_store st r1) as Hs. rewrite Hstep in Hs.
    simpl in Hs. rewrite Hs, (increment_fresh _ _ _ Hfresh). simpl.
    apply lookup_insert_eq. }
  assert (Hout : out = next r1).
  { unfold rateLimit in Hstep. rewrite (increment_fresh _ _ _ Hfresh) in Hstep.
    cbn in Hstep. congruence. }
  pose proof (run_forwards rs st1 (ip r1) _ Hst1 Hrs) as Hf.
  rewrite Hrun in Hf. cbn [snd hits] in Hf. rewrite Hf, Hout; [done|].
  rewrite Hlen. unfold max. lia.
Qed.

(** After a burst of five the client's counter stands at five, in the
    window the first request opened. *)
Lemma burst_window (st : Store) (key : string)
  (r1 : Request B) (rs : list (Request B)) (r6 : Request B) :
  burst st key r1 rs r6 ->
  fst (run (rateLimit message next) st (r1 :: rs)) !! key
    = Some (mkWindow 5 (now r1 + windowMs)).
Proof.
  intros (Hfresh & Hip & Hlen & Hall). subst key.
  apply Forall_app in Hall as [Hrs _].
  simpl.
  destruct (rateLimit message next st r1) as [st1 out] eqn:Hstep.
  destruct (run (rateLimit message next) st1 rs) as [st2 outs] eqn:Hrun.
  simpl.
  assert (Hst1 : st1 !! ip r1 = Some (mkWindow 1 (now r1 + windowMs))).
  { pose proof (rateLimit_store st r1) as Hs. rewrite Hstep in Hs.
    simpl in Hs. rewrite Hs, (increment_fresh _ _ _ Hfresh). simpl.
    apply lookup_insert_eq. }
  pose proof (run_counts rs st1 (ip r1) _ Hst1 Hrs) as Hc.
  rewrite Hrun in Hc. simpl in Hc. rewrite Hc, Hlen. done.
Qed.

(** The sixth is turned away and nothing behind the limiter runs. *)
Lemma burst_sixth (st : Store) (key : string)
  (r1 : Request B) (rs : list (Request B)) (r6 : Request B) :
  burst st key r1 rs r6 ->
  snd (rateLimit message next
         (fst (run (rateLimit message next) st (r1 :: rs))) r6)
    = reply 429 (Json message).
Proof.
  intros Hb. pose proof (burst_window _ _ _ _ _ Hb) as Hw.
  destruct Hb as (_ & _ & _ & Hall).
  apply Forall_app in Hall as [_ H6].
  inversion H6 as [|? ? [Hip Hlt] _]; subst.
  set (st5 := fst (run (rateLimit message next) st (r1 :: rs))) in *.
  unfold rateLimit.
  rewrite (increment_live st5 (ip r6) (now r6) _ Hw Hlt). done.
Qed.

(** Requests of one client never move another client's window. *)
Lemma run_other (rs : list (Request B)) :
  forall (st : Store) (key' : string),
    Forall (fun r => ip r <> key') rs ->
    fst (run (rateLimit message next) st rs) !! key' = st !! key'.
Proof.
  induction rs as [|r rest IH]; intros st key' Hall; simpl; [done|].
  inversion Hall as [|? ? Hne Hrest]; subst.
  destruct (rateLimit message next st r) as [st1 out] eqn:Hstep.
  destruct (run (rateLimit message next) st1 rest) as [st2 outs] eqn:Hrun.
  simpl. specialize (IH st1 key' Hrest). rewrite Hrun in IH. simpl in IH.
  rewrite IH. pose proof (rateLimit_store st r) as Hs. rewrite Hstep in Hs.
  simpl in Hs. rewrite Hs. by apply increment_other.
Qed.

Lemma burst_bystander (st : Store) (key : string)
  (r1 : Request B) (rs : list (Request B)) (r6 r' : Request B) :
  burst st key r1 rs r6 -> ip r' <> key ->
  snd (rateLimit message next
         (fst (run (rateLimit message next) st (r1 :: rs ++ [r6]))) r')
    = snd (rateLimit message next st r').
Proof.
  intros (_ & Hip & _ & Hall) Hne.
  apply rateLimit_local. apply run_other.
  constructor; [congruence|].
  eapply Forall_impl; [exact Hall|]. intros r [Hr _]. congruence.
Qed.

End Limiter.

(** *** The two booking routes *)

Lemma Sample_burst {B} (b : B) :
  burst ∅ Sample.client (Sample.first b) (Sample.following b) (Sample.sixth b).
Proof.
  split; [left; apply lookup_empty|].
  split; [reflexivity|]. split; [reflexivity|].
  repeat constructor.
Qed.

Lemma adminMail_envelope (env : Resend.Env) (b : list (string * Val)) (m : Mail) :
  Resend.adminMail env b = Some m ->
  to m = VArr [JS.env (Resend.ADMIN_EMAIL env)] /\ replyTo m = VUndef.
Proof.
  unfold Resend.adminMail. intros H. simplify_option_eq. done.
Qed.

Lemma Resend_sent (env : Resend.Env) (send : Transport) (b : list (string * Val)) :
  sent (Resend.booking env send b) =
    match Resend.adminMail env b with
    | None => []
    | Some m => [(m, send 0 m)]
    end.
Proof.
  unfold Resend.booking. destruct (Resend.adminMail env b) as [m|]; [|done].
  by destruct (send 0 m).
Qed.

(** Whatever string the name is, the admin mail of server.js carries it
    letter for letter. *)
Lemma Resend_name_verbatim (env : Resend.Env) (b : list (string * Val))
  (m : Mail) (name : string) :
  Resend.adminMail env b = Some m ->
  prop "fullName" b = VStr name ->
  includes name (html m) = true.
Proof.
  unfold Resend.adminMail. intros H Hname. rewrite Hname in H.
  change (ToString (VStr name)) with (Some name) in H.
  repeat match type of H with
         | context [ToString ?v] =>
             destruct (ToString v) as [?|]; cbn [mbind option_bind] in H;
             [|discriminate H]
         end.
  cbn [mbind option_bind] in H. injection H as <-.
  cbn [html]. unfold Resend.adminHtml. find_hole.
Qed.

Section Claims.

Variable trim : string -> string.
Variable escape : string -> string.
Variable isEmail : string -> bool.
Variable normalizeEmail : string -> option string.

Lemma Secure_sent (env : Secure.Env) (send : Transport) (f : Secure.Form) :
  Secure.errors trim isEmail f = [] ->
  let c := Secure.sanitize trim escape normalizeEmail f in
  let m1 := Secure.visitorMail env c in
  let m2 := Secure.companyMail env c in
  sent (Secure.booking trim escape isEmail normalizeEmail env send f) =
    match send 0 m1 with
    | Failed _ => [(m1, send 0 m1)]
    | Delivered _ => [(m1, send 0 m1); (m2, send 1 m2)]
    end.
Proof.
  intros Hok c m1 m2. unfold Secure.booking. rewrite Hok.
  fold c. fold m1. destruct (send 0 m1) as [id1|e1]; [|done].
  fold m2. by destruct (send 1 m2).
Qed.

(** The company mail of server-secure.js carries the address exactly as
    [normalizeEmail] returned it: of the eight holes, this is the one whose
    value has not been through [escape]. *)
Lemma Secure_email_verbatim (env : Secure.Env) (f : Secure.Form) :
  includes (Secure.emailText (normalizeEmail (Secure.text (Secure.email f))))
           (html (Secure.companyMail env
                    (Secure.sanitize trim escape normalizeEmail f))) = true.
Proof.
  unfold Secure.companyMail, Secure.sanitize. cbn [html Secure.s_email].
  unfold Secure.companyEmail. find_hole.
Qed.

(** C1 (as amended): in the SMTP variant a payload that passes validation
    and whose visitor mail is delivered leads to exactly two dispatch
    calls; the first goes to the email value the chain left in the request
    body (the normalised submitted address), the second to
    [RECEIVER_EMAIL], with the first call's recipient as its reply address.
    In the Resend variant a payload that passes validation leads to at most
    one dispatch call, addressed to [ADMIN_EMAIL], with no reply address. *)
Theorem C1_dispatch_calls
  (env_s : Secure.Env) (send_s : Transport) (f : Secure.Form) (id : string)
  (env_r : Resend.Env) (send_r : Transport) (b : list (string * Val)) :
  Secure.errors trim isEmail f = [] ->
  send_s 0 (Secure.visitorMail env_s
              (Secure.sanitize trim escape normalizeEmail f)) = Delivered id ->
  Resend.validateBooking b = Normal Resend.Next ->
  (exists m1 o1 m2 o2,
      sent (Secure.booking trim escape isEmail normalizeEmail env_s send_s f)
        = [(m1, o1); (m2, o2)]
      /\ to m1 = Secure.emailVal (normalizeEmail (Secure.text (Secure.email f)))
      /\ to m2 = JS.env (Secure.RECEIVER_EMAIL env_s)
      /\ replyTo m2 = to m1)
  /\ (List.length (sent (Resend.booking env_r send_r b)) <= 1
      /\ forall m o, In (m, o) (sent (Resend.booking env_r send_r b)) ->
           to m = VArr [JS.env (Resend.ADMIN_EMAIL env_r)]
           /\ replyTo m = VUndef).
Proof.
  intros Hok Hfirst _. split.
  - rewrite (Secure_sent env_s send_s f Hok). cbv zeta. rewrite Hfirst.
    do 4 eexists. split; [reflexivity|]. done.
  - rewrite Resend_sent.
    destruct (Resend.adminMail env_r b) as [m|] eqn:Hm; simpl.
    + split; [lia|]. intros m' o [Heq|[]]. inversion Heq; subst.
      by apply (adminMail_envelope env_r b).
    + split; [lia|]. intros m' o [].
Qed.

(** C4: six requests of one client inside one fifteen-minute window, with a
    ceiling of five: the first five are handed to validation and the
    handler, the sixth is answered 429 and no mail is dispatched for it, on
    either server; a request of another client handled after them gets
    exactly the result it would have got without them. *)
Theorem C4_sixth_request_limited
  (env_r : Resend.Env) (send_r : Transport)
  (env_s : Secure.Env) (send_s : Transport)
  (st : Store) (key : string)
  (r1 : Request (list (string * Val))) (rs : list (Request (list (string * Val))))
  (r6 r' : Request (list (string * Val)))
  (q1 : Request Secure.Form) (qs : list (Request Secure.Form))
  (q6 q' : Request Secure.Form) :
  burst st key r1 rs r6 -> ip r' <> key ->
  burst st key q1 qs q6 -> ip q' <> key ->
  let resend := Resend.route env_r send_r in
  let secure := Secure.route trim escape isEmail normalizeEmail env_s send_s in
  (snd (run resend st (r1 :: rs))
     = map (Resend.validated env_r send_r) (r1 :: rs)
   /\ status (response (snd (resend (fst (run resend st (r1 :: rs))) r6))) = 429
   /\ sent (snd (resend (fst (run resend st (r1 :: rs))) r6)) = []
   /\ snd (resend (fst (run resend st (r1 :: rs ++ [r6]))) r')
        = snd (resend st r'))
  /\
  (snd (run secure st (q1 :: qs))
     = map (fun q => Secure.booking trim escape isEmail normalizeEmail
                       env_s send_s (body q)) (q1 :: qs)
   /\ status (response (snd (secure (fst (run secure st (q1 :: qs))) q6))) = 429
   /\ sent (snd (secure (fst (run secure st (q1 :: qs))) q6)) = []
   /\ snd (secure (fst (run secure st (q1 :: qs ++ [q6]))) q')
        = snd (secure st q')).
Proof.
  intros Hr Hr' Hq Hq' resend secure. split.
  - unfold resend, Resend.route.
    rewrite (burst_sixth _ _ st key r1 rs r6 Hr).
    split; [by apply (burst_forwards _ _ st key r1 rs r6)|].
    repeat split. by apply (burst_bystander _ _ st key).
  - unfold secure, Secure.route.
    rewrite (burst_sixth _ _ st key q1 qs q6 Hq).
    split; [by apply (burst_forwards _ _ st key q1 qs q6)|].
    repeat split. by apply (burst_bystander _ _ st key).
Qed.

(** *** Validation *)



Section Rejection.

(** What the chain needs from [isEmail]: a string that trims to nothing is
    not an address. *)
Hypothesis isEmail_blank : forall s, trim s = "" -> isEmail s = false.



End Rejection.

(** C10 (as amended): in the Resend variant [validateBooking] calls
    [email.includes('@')] without checking that the value is a string.
    When the other four required fields are truthy and the email value is
    truthy and not a string, the middleware throws a TypeError and returns
    no 400 if that value is a number, a boolean or an object; if it is an
    array, [Array.prototype.includes] runs instead and the middleware
    answers 400 unless the array holds the element "@".  A thrown error
    leaves the middleware and the final handler answers the request. *)
Theorem C10_email_without_includes_throws
  (env : Resend.Env) (send : Transport) (r : Request (list (string * Val))) :
  truthy (prop "fullName" (body r)) = true ->
  truthy (prop "serviceType" (body r)) = true ->
  truthy (prop "preferredDate" (body r)) = true ->
  truthy (prop "preferredTime" (body r)) = true ->
  truthy (prop "email" (body r)) = true ->
  Resend.isString (prop "email" (body r)) = false ->
  Resend.validateBooking (body r) =
    match prop "email" (body r) with
    | VArr items =>
        if existsb (fun e => match e with
                             | VStr t => String.eqb t "@"
                             | _ => false
                             end) items
        then Normal Resend.Next
        else Normal (Resend.Respond 400
                       (VObj [("error", VStr "Invalid email format")]))
    | _ => Throw TypeError
    end
  /\ (Resend.lacksIncludes (prop "email" (body r)) = true ->
      Resend.validateBooking (body r) = Throw TypeError
      /\ Resend.validated env send r = uncaught TypeError
      /\ sent (Resend.validated env send r) = []).
Proof.
  intros H1 H2 H3 H4 H5 Hns.
  assert (Hval : Resend.validateBooking (body r)
                 = match call_includes (prop "email" (body r)) "@" with
                   | Throw e => Throw e
                   | Normal false =>
                       Normal (Resend.Respond 400
                         (VObj [("error", VStr "Invalid email format")]))
                   | Normal true => Normal Resend.Next
                   end).
  { unfold Resend.validateBooking. by rewrite H1, H2, H3, H4, H5. }
  split.
  - rewrite Hval.
    destruct (prop "email" (body r)); first [reflexivity | discriminate].
  - intros Hlacks.
    assert (Hthrow : Resend.validateBooking (body r) = Throw TypeError).
    { rewrite Hval. by destruct (prop "email" (body r)). }
    split; [exact Hthrow|]. unfold Resend.validated. by rewrite Hthrow.
Qed.

(** *** Dispatch *)


(** C6 (as amended): in the SMTP variant the visitor mail is attempted for
    every valid booking and the company mail is attempted exactly when the
    visitor mail was delivered, whatever its own outcome; the two sends are
    awaited one after the other.  In the Resend variant the admin mail is
    the only send, attempted whenever its fields render. *)
Theorem C6_sends_attempted
  (env_s : Secure.Env) (send_s : Transport) (f : Secure.Form)
  (env_r : Resend.Env) (send_r : Transport) (b : list (string * Val)) :
  Secure.errors trim isEmail f = [] ->
  Resend.validateBooking b = Normal Resend.Next ->
  let c := Secure.sanitize trim escape normalizeEmail f in
  let m1 := Secure.visitorMail env_s c in
  let m2 := Secure.companyMail env_s c in
  sent (Secure.booking trim escape isEmail normalizeEmail env_s send_s f) =
    match send_s 0 m1 with
    | Failed _ => [(m1, send_s 0 m1)]
    | Delivered _ => [(m1, send_s 0 m1); (m2, send_s 1 m2)]
    end
  /\ sent (Resend.booking env_r send_r b) =
       match Resend.adminMail env_r b with
       | None => []
       | Some m => [(m, send_r 0 m)]
       end.
Proof.
  intros Hok _ c m1 m2. split.
  - exact (Secure_sent env_s send_s f Hok).
  - apply Resend_sent.
Qed.

(** *** Start-up *)

(** C7 (as amended): in the Resend variant, if RESEND_API_KEY, FROM_EMAIL
    or ADMIN_EMAIL is unset or empty when the module runs, the process
    exits with code 1 and never listens.  The SMTP variant has no such
    check: it listens whatever its environment holds. *)
Theorem C7_resend_refuses_to_start
  (env_r : Resend.Env) (send_r : Transport)
  (env_s : Secure.Env) (send_s : Transport) :
  Resend.unset (Resend.RESEND_API_KEY env_r)
  \/ Resend.unset (Resend.FROM_EMAIL env_r)
  \/ Resend.unset (Resend.ADMIN_EMAIL env_r) ->
  Resend.main env_r send_r = Exited 1
  /\ Secure.main trim escape isEmail normalizeEmail env_s send_s
       = Listening (or (JS.env (Secure.PORT env_s)) (VNum "5000"))
           (Secure.app trim escape isEmail normalizeEmail env_s send_s).
Proof.
  intros H. split; [|reflexivity]. unfold Resend.main, Resend.unset in *.
  destruct H as [[H|H]|[[H|H]|[H|H]]]; rewrite H; simpl;
    rewrite ?orb_true_r; reflexivity.
Qed.

(** *** The gatekeeping middleware *)

Lemma Secure_booking_plain (env : Secure.Env) (send : Transport) (f : Secure.Form) :
  headers (response
    (Secure.booking trim escape isEmail normalizeEmail env send f)) = [].
Proof.
  unfold Secure.booking. destruct (Secure.errors trim isEmail f); [|done].
  destruct (send 0 _); [|done]. by destruct (send 1 _).
Qed.

Lemma Secure_inner_plain (env : Secure.Env) (send : Transport)
  (st : Store) (q : Request Secure.Form) :
  headers (response (snd
    (json Secure.bodyLimit
       (post (Secure.route trim escape isEmail normalizeEmail env send))
       st q))) = [].
Proof.
  unfold json, post, Secure.route, rateLimit.
  destruct (Secure.bodyLimit <? bodyBytes q)%Z; [done|].
  destruct (method q); try done.
  destruct (increment st (ip q) (now q)) as [st' n].
  destruct (Nat.ltb max n); [done|]. apply Secure_booking_plain.
Qed.

Lemma Secure_allow_origin {B} (q : Request B) :
  header "Access-Control-Allow-Origin" (configureOrigin Secure.corsOptions q)
    = match origin q with
      | Some o =>
          if isOriginAllowed (Some o) ["http://localhost:5178";
                                       "http://192.168.100.12:5178"]
          then Some o else None
      | None => None
      end.
Proof.
  unfold configureOrigin, Secure.corsOptions. cbn [originOption].
  destruct (origin q) as [o|]; [|reflexivity].
  destruct (isOriginAllowed (Some o) _); reflexivity.
Qed.

Lemma Secure_allow_methods {B} (p : Request B) :
  header "Access-Control-Allow-Methods"
    (configureOrigin Secure.corsOptions p ++
     configureMethods Secure.corsOptions ++
     configureAllowedHeaders Secure.corsOptions p ++ [("Content-Length", "0")])
    = Some "POST".
Proof.
  unfold configureOrigin, Secure.corsOptions. cbn [originOption].
  destruct (origin p) as [o|]; [|reflexivity].
  destruct (isOriginAllowed (Some o) _); reflexivity.
Qed.

(** C8 (as amended): a request other than a preflight whose JSON body is
    longer than the parser's limit is answered 413 before the booking route
    runs: the limiter's store is untouched and nothing is dispatched.  The
    limit is 10 KB (10240 bytes) in the SMTP variant and the parser's
    default of 100 KB (102400 bytes) in the Resend variant. *)
Theorem C8_body_ceiling
  (env_s : Secure.Env) (send_s : Transport) (st : Store)
  (q : Request Secure.Form)
  (env_r : Resend.Env) (send_r : Transport)
  (r : Request (list (string * Val))) :
  method q <> OPTIONS -> (10240 < bodyBytes q)%Z ->
  method r <> OPTIONS -> (102400 < bodyBytes r)%Z ->
  let out_s := Secure.app trim escape isEmail normalizeEmail env_s send_s st q in
  let out_r := Resend.app env_r send_r st r in
  (fst out_s = st /\ status (response (snd out_s)) = 413
   /\ sent (snd out_s) = [])
  /\ (fst out_r = st /\ status (response (snd out_r)) = 413
      /\ sent (snd out_r) = []).
Proof.
  intros Hq Hbig_q Hr Hbig_r. cbv zeta.
  unfold Secure.app, Resend.app, cors, json.
  change Secure.bodyLimit with 10240%Z. change defaultLimit with 102400%Z.
  destruct (Z.ltb_spec 10240 (bodyBytes q)); [|lia].
  destruct (Z.ltb_spec 102400 (bodyBytes r)); [|lia].
  split.
  - by destruct (method q).
  - by destruct (method r).
Qed.

(** C9 (as amended): the CORS layer decides headers and rejects nothing.  A
    request other than a preflight is handled by the rest of the stack
    whatever its origin; in the SMTP variant the response carries
    Access-Control-Allow-Origin, echoing the request's origin, exactly when
    that origin is one of the two configured ones, and in the Resend
    variant it always carries the wildcard.  A preflight to the SMTP
    variant is answered 204 and advertises POST as the only allowed
    method. *)
Theorem C9_cors_sets_headers_only
  (env_s : Secure.Env) (send_s : Transport) (st : Store)
  (q p : Request Secure.Form)
  (env_r : Resend.Env) (send_r : Transport)
  (r : Request (list (string * Val))) :
  method q <> OPTIONS -> method p = OPTIONS -> method r <> OPTIONS ->
  let rest_s :=
    json Secure.bodyLimit
      (post (Secure.route trim escape isEmail normalizeEmail env_s send_s)) in
  let out_s := Secure.app trim escape isEmail normalizeEmail env_s send_s st q in
  let pre_s := Secure.app trim escape isEmail normalizeEmail env_s send_s st p in
  let rest_r := json defaultLimit (post (Resend.route env_r send_r)) in
  let out_r := Resend.app env_r send_r st r in
  (fst out_s = fst (rest_s st q)
   /\ status (response (snd out_s)) = status (response (snd (rest_s st q)))
   /\ content (response (snd out_s)) = content (response (snd (rest_s st q)))
   /\ sent (snd out_s) = sent (snd (rest_s st q))
   /\ header "Access-Control-Allow-Origin" (headers (response (snd out_s)))
        = match origin q with
          | Some o =>
              if isOriginAllowed (Some o) ["http://localhost:5178";
                                           "http://192.168.100.12:5178"]
              then Some o else None
          | None => None
          end)
  /\ (status (response (snd pre_s)) = 204
      /\ sent (snd pre_s) = []
      /\ header "Access-Control-Allow-Methods" (headers (response (snd pre_s)))
           = Some "POST")
  /\ (fst out_r = fst (rest_r st r)
      /\ status (response (snd out_r)) = status (response (snd (rest_r st r)))
      /\ content (response (snd out_r)) = content (response (snd (rest_r st r)))
      /\ sent (snd out_r) = sent (snd (rest_r st r))
      /\ header "Access-Control-Allow-Origin" (headers (response (snd out_r)))
           = Some "*").
Proof.
  intros Hq Hp Hr rest_s out_s pre_s rest_r out_r. split; [|split].
  - pose proof (Secure_inner_plain env_s send_s st q) as Hplain.
    fold rest_s in Hplain.
    unfold out_s, Secure.app, cors. fold rest_s.
    destruct (rest_s st q) as [st' res] eqn:Hrest. simpl in Hplain.
    assert (Hout : (match method q with
                    | OPTIONS => (st, mkResult (mkResponse 204
                        (configureOrigin Secure.corsOptions q ++
                         configureMethods Secure.corsOptions ++
                         configureAllowedHeaders Secure.corsOptions q ++
                         [("Content-Length", "0")]) Empty) [])
                    | _ => (st', withHeaders
                                   (configureOrigin Secure.corsOptions q) res)
                    end) = (st', withHeaders
                                   (configureOrigin Secure.corsOptions q) res)).
    { by destruct (method q). }
    rewrite Hout. cbn [fst snd withHeaders response status content sent headers].
    repeat split. rewrite Hplain, app_nil_r. apply Secure_allow_origin.
  - unfold pre_s, Secure.app, cors. rewrite Hp.
    cbn [fst snd response status content sent headers].
    repeat split. apply Secure_allow_methods.
  - unfold out_r, Resend.app, cors. fold rest_r.
    destruct (rest_r st r) as [st' res] eqn:Hrest.
    assert (Hout : (match method r with
                    | OPTIONS => (st, mkResult (mkResponse 204
                        (configureOrigin corsDefaults r ++
                         configureMethods corsDefaults ++
                         configureAllowedHeaders corsDefaults r ++
                         [("Content-Length", "0")]) Empty) [])
                    | _ => (st', withHeaders (configureOrigin corsDefaults r) res)
                    end) = (st', withHeaders (configureOrigin corsDefaults r) res)).
    { by destruct (method r). }
    rewrite Hout. simpl. repeat split.
Qed.

End Claims.

(* ===================================================================== *)
(** ** The claims on concrete requests                                    *)
(* ===================================================================== *)

(** *** The stand-in address test refuses what trims to nothing *)





(** *** Where the claims as first stated fail *)

(** C1, as stated, fails on server.js: the spec's own example payload
    passes validation and is answered 200 after a single dispatch call,
    whose recipient is the admin mailbox and not the submitted address. *)
Lemma C1_resend_single_dispatch :
  let out := snd (Resend.app Sample.resendEnv Sample.delivering ∅
                    (Sample.first Sample.jane)) in
  Resend.validateBooking Sample.jane = Normal Resend.Next
  /\ status (response out) = 200
  /\ Sample.recipients out = [VArr [VStr "admin@altura.example"]]
  /\ map (fun call => replyTo (fst call)) (sent out) = [VUndef].
Proof. vm_compute. repeat split. Qed.

(** C2: server.js interpolates the name as submitted; the script tag of the
    spec's example reaches the admin mail's HTML body verbatim. *)
Theorem C2_resend_script_tag_unescaped :
  let out := snd (Resend.app Sample.resendEnv Sample.delivering ∅
                    (Sample.first
                       (Sample.booking (VStr Sample.scriptTag)
                                       (VStr "jane@x.com")))) in
  status (response out) = 200
  /\ map (fun call => includes Sample.scriptTag (html (fst call))) (sent out)
       = [true].
Proof. vm_compute. repeat split. Qed.

(** The same name through server-secure.js, with the entity table standing
    in for [escape]: neither body holds the tag. *)
Example Secure_script_tag_escaped :
  let f := Secure.mkForm (Some Sample.scriptTag) (Some "jane@x.com") None None
             (Some "Consult") (Some "2025-01-10") (Some "10:00") None in
  map (fun call => includes Sample.scriptTag (html (fst call)))
      (sent (Sample.secureBooking Sample.secureEnv Sample.delivering f))
    = [false; false].
Proof. vm_compute. reflexivity. Qed.


(** C6, as stated, fails on server-secure.js: when the visitor mail is
    refused the handler goes straight to its catch block; the company mail
    is never attempted. *)
Lemma C6_secure_visitor_failure_skips_company :
  let out := snd (Sample.secureApp Sample.secureEnv Sample.failing ∅
                    (Sample.first Sample.janeForm)) in
  Secure.errors Sample.trim Sample.isEmail Sample.janeForm = []
  /\ status (response out) = 500
  /\ Sample.recipients out = [VStr "jane@x.com"].
Proof. vm_compute. repeat split. Qed.

(** C7, as stated, fails on server-secure.js: with every variable unset the
    process still listens, and a booking is then answered 500 at request
    time. *)
Lemma C7_secure_listens_unconfigured :
  match Secure.main Sample.trim Sample.escape Sample.isEmail
          Sample.normalizeEmail Sample.unconfigured Sample.failing with
  | Exited _ => False
  | Listening _ serve =>
      status (response (snd (serve ∅ (Sample.first Sample.janeForm)))) = 500
  end.
Proof. vm_compute. reflexivity. Qed.

(** C8, as stated, fails on server.js: a body of 20000 bytes, about twice
    the 10 KB ceiling, is parsed and the booking goes through. *)
Lemma C8_resend_accepts_20kb :
  let out := snd (Resend.app Sample.resendEnv Sample.delivering ∅
                    (Sample.postFrom Sample.client Sample.frontend 0 20000
                       Sample.jane)) in
  status (response out) = 200 /\ List.length (sent out) = 1.
Proof. vm_compute. repeat split. Qed.

(** C9, as stated, fails on both servers: a POST whose origin is on no
    list is answered 200 and its mails are dispatched. *)
Lemma C9_unlisted_origin_served :
  let out_r := snd (Resend.app Sample.resendEnv Sample.delivering ∅
                      (Sample.postFrom Sample.client Sample.elsewhere 0 200
                         Sample.jane)) in
  let out_s := snd (Sample.secureApp Sample.secureEnv Sample.delivering ∅
                      (Sample.postFrom Sample.client Sample.elsewhere 0 200
                         Sample.janeForm)) in
  isOriginAllowed (Some Sample.elsewhere)
    ["http://localhost:5178"; "http://192.168.100.12:5178"] = false
  /\ status (response out_r) = 200 /\ List.length (sent out_r) = 1
  /\ status (response out_s) = 200 /\ List.length (sent out_s) = 2.
Proof. vm_compute. repeat split. Qed.

(** C10, as stated, fails for arrays: an empty array is a truthy
    non-string JSON value, it has an [includes] method, and the middleware
    returns 400 "Invalid email format" without throwing. *)
Lemma C10_array_email_answered_400 :
  truthy (VArr []) = true
  /\ Resend.validateBooking (Sample.booking (VStr "Jane Doe") (VArr []))
     = Normal (Resend.Respond 400
                 (VObj [("error", VStr "Invalid email format")])).
Proof. vm_compute. repeat split. Qed.

(** *** The theorems at concrete requests *)

Lemma C1_dispatch_calls_witness :
  Secure.errors Sample.trim Sample.isEmail Sample.janeForm = []
  /\ Sample.delivering 0
       (Secure.visitorMail Sample.secureEnv
          (Secure.sanitize Sample.trim Sample.escape Sample.normalizeEmail
             Sample.janeForm)) = Delivered "msg-1"
  /\ Resend.validateBooking Sample.jane = Normal Resend.Next
  /\ (exists m1 o1 m2 o2,
         sent (Sample.secureBooking Sample.secureEnv Sample.delivering
                 Sample.janeForm) = [(m1, o1); (m2, o2)]
         /\ to m1 = VStr "jane@x.com"
         /\ to m2 = VStr "admin@altura.example"
         /\ replyTo m2 = to m1)
  /\ (List.length
        (sent (Resend.booking Sample.resendEnv Sample.delivering Sample.jane))
        <= 1
      /\ forall m o,
           In (m, o)
              (sent (Resend.booking Sample.resendEnv Sample.delivering
                       Sample.jane)) ->
           to m = VArr [VStr "admin@altura.example"] /\ replyTo m = VUndef).
Proof.
  split; [vm_compute; reflexivity|]. split; [reflexivity|].
  split; [vm_compute; reflexivity|].
  apply (C1_dispatch_calls Sample.trim Sample.escape Sample.isEmail
           Sample.normalizeEmail Sample.secureEnv Sample.delivering
           Sample.janeForm "msg-1" Sample.resendEnv Sample.delivering
           Sample.jane); vm_compute; reflexivity.
Defined.


Lemma C4_sixth_request_limited_witness :
  let resend := Resend.route Sample.resendEnv Sample.delivering in
  let secure := Sample.secureRoute Sample.secureEnv Sample.delivering in
  burst ∅ Sample.client (Sample.first Sample.jane)
        (Sample.following Sample.jane) (Sample.sixth Sample.jane)
  /\ ip (Sample.bystander Sample.jane) <> Sample.client
  /\ burst ∅ Sample.client (Sample.first Sample.janeForm)
           (Sample.following Sample.janeForm) (Sample.sixth Sample.janeForm)
  /\ ip (Sample.bystander Sample.janeForm) <> Sample.client
  /\ (snd (run resend ∅ (Sample.first Sample.jane
                           :: Sample.following Sample.jane))
        = map (Resend.validated Sample.resendEnv Sample.delivering)
              (Sample.first Sample.jane :: Sample.following Sample.jane)
      /\ status (response (snd (resend
        (fst (run resend ∅ (Sample.first Sample.jane
                             :: Sample.following Sample.jane)))
        (Sample.sixth Sample.jane)))) = 429
      /\ sent (snd (resend
           (fst (run resend ∅ (Sample.first Sample.jane
                                :: Sample.following Sample.jane)))
           (Sample.sixth Sample.jane))) = []
      /\ snd (resend
           (fst (run resend ∅ (Sample.first Sample.jane
                                :: Sample.following Sample.jane
                                   ++ [Sample.sixth Sample.jane])))
           (Sample.bystander Sample.jane))
         = snd (resend ∅ (Sample.bystander Sample.jane)))
  /\ (snd (run secure ∅ (Sample.first Sample.janeForm
                           :: Sample.following Sample.janeForm))
        = map (fun q => Sample.secureBooking Sample.secureEnv
                          Sample.delivering (body q))
              (Sample.first Sample.janeForm :: Sample.following Sample.janeForm)
      /\ status (response (snd (secure
        (fst (run secure ∅ (Sample.first Sample.janeForm
                             :: Sample.following Sample.janeForm)))
        (Sample.sixth Sample.janeForm)))) = 429
      /\ sent (snd (secure
           (fst (run secure ∅ (Sample.first Sample.janeForm
                                :: Sample.following Sample.janeForm)))
           (Sample.sixth Sample.janeForm))) = []
      /\ snd (secure
           (fst (run secure ∅ (Sample.first Sample.janeForm
                                :: Sample.following Sample.janeForm
                                   ++ [Sample.sixth Sample.janeForm])))
           (Sample.bystander Sample.janeForm))
         = snd (secure ∅ (Sample.bystander Sample.janeForm))).
Proof.
  intros resend secure.
  split; [apply Sample_burst|]. split; [discriminate|].
  split; [apply Sample_burst|]. split; [discriminate|].
  apply (C4_sixth_request_limited Sample.trim Sample.escape Sample.isEmail
           Sample.normalizeEmail Sample.resendEnv Sample.delivering
           Sample.secureEnv Sample.delivering ∅ Sample.client
           (Sample.first Sample.jane) (Sample.following Sample.jane)
           (Sample.sixth Sample.jane) (Sample.bystander Sample.jane)
           (Sample.first Sample.janeForm) (Sample.following Sample.janeForm)
           (Sample.sixth Sample.janeForm) (Sample.bystander Sample.janeForm)).
  - apply Sample_burst.
  - discriminate.
  - apply Sample_burst.
  - discriminate.
Defined.


Lemma C6_sends_attempted_witness :
  Secure.errors Sample.trim Sample.isEmail Sample.janeForm = []
  /\ Resend.validateBooking Sample.jane = Normal Resend.Next
  /\ (let c := Secure.sanitize Sample.trim Sample.escape Sample.normalizeEmail
                 Sample.janeForm in
      let m1 := Secure.visitorMail Sample.secureEnv c in
      let m2 := Secure.companyMail Sample.secureEnv c in
      sent (Sample.secureBooking Sample.secureEnv Sample.failingSecond
              Sample.janeForm) =
        match Sample.failingSecond 0 m1 with
        | Failed _ => [(m1, Sample.failingSecond 0 m1)]
        | Delivered _ =>
            [(m1, Sample.failingSecond 0 m1); (m2, Sample.failingSecond 1 m2)]
        end
      /\ sent (Resend.booking Sample.resendEnv Sample.delivering Sample.jane) =
           match Resend.adminMail Sample.resendEnv Sample.jane with
           | None => []
           | Some m => [(m, Sample.delivering 0 m)]
           end).
Proof.
  split; [vm_compute; reflexivity|]. split; [vm_compute; reflexivity|].
  apply (C6_sends_attempted Sample.trim Sample.escape Sample.isEmail
           Sample.normalizeEmail Sample.secureEnv Sample.failingSecond
           Sample.janeForm Sample.resendEnv Sample.delivering Sample.jane);
    vm_compute; reflexivity.
Defined.

Lemma C7_resend_refuses_to_start_witness :
  (Resend.unset (Resend.RESEND_API_KEY Sample.noAdmin)
   \/ Resend.unset (Resend.FROM_EMAIL Sample.noAdmin)
   \/ Resend.unset (Resend.ADMIN_EMAIL Sample.noAdmin))
  /\ Resend.main Sample.noAdmin Sample.delivering = Exited 1
  /\ Secure.main Sample.trim Sample.escape Sample.isEmail Sample.normalizeEmail
       Sample.unconfigured Sample.delivering
     = Listening (or (JS.env (Secure.PORT Sample.unconfigured)) (VNum "5000"))
         (Sample.secureApp Sample.unconfigured Sample.delivering).
Proof.
  split; [right; right; left; reflexivity|].
  apply (C7_resend_refuses_to_start Sample.trim Sample.escape Sample.isEmail
           Sample.normalizeEmail Sample.noAdmin Sample.delivering
           Sample.unconfigured Sample.delivering).
  right; right; left; reflexivity.
Defined.

Lemma C8_body_ceiling_witness :
  let q := Sample.postFrom Sample.client Sample.frontend 0 10241
             Sample.janeForm in
  let r := Sample.postFrom Sample.client Sample.frontend 0 102401
             Sample.jane in
  let out_s := Sample.secureApp Sample.secureEnv Sample.delivering ∅ q in
  let out_r := Resend.app Sample.resendEnv Sample.delivering ∅ r in
  method q <> OPTIONS /\ (10240 < bodyBytes q)%Z
  /\ method r <> OPTIONS /\ (102400 < bodyBytes r)%Z
  /\ (fst out_s = ∅ /\ status (response (snd out_s)) = 413
      /\ sent (snd out_s) = [])
  /\ (fst out_r = ∅ /\ status (response (snd out_r)) = 413
      /\ sent (snd out_r) = []).
Proof.
  intros q r out_s out_r.
  split; [discriminate|]. split; [reflexivity|].
  split; [discriminate|]. split; [reflexivity|].
  apply (C8_body_ceiling Sample.trim Sample.escape Sample.isEmail
           Sample.normalizeEmail Sample.secureEnv Sample.delivering ∅ q
           Sample.resendEnv Sample.delivering r);
    first [discriminate | reflexivity].
Defined.

Lemma C9_cors_sets_headers_only_witness :
  let q := Sample.postFrom Sample.client Sample.elsewhere 0 200
             Sample.janeForm in
  let p := Sample.preflight Sample.janeForm in
  let r := Sample.postFrom Sample.client Sample.elsewhere 0 200 Sample.jane in
  let rest_s :=
    json Secure.bodyLimit
      (post (Sample.secureRoute Sample.secureEnv Sample.delivering)) in
  let out_s := Sample.secureApp Sample.secureEnv Sample.delivering ∅ q in
  let pre_s := Sample.secureApp Sample.secureEnv Sample.delivering ∅ p in
  let rest_r :=
    json defaultLimit (post (Resend.route Sample.resendEnv Sample.delivering)) in
  let out_r := Resend.app Sample.resendEnv Sample.delivering ∅ r in
  method q <> OPTIONS /\ method p = OPTIONS /\ method r <> OPTIONS
  /\ (fst out_s = fst (rest_s ∅ q)
      /\ status (response (snd out_s)) = status (response (snd (rest_s ∅ q)))
      /\ content (response (snd out_s)) = content (response (snd (rest_s ∅ q)))
      /\ sent (snd out_s) = sent (snd (rest_s ∅ q))
      /\ header "Access-Control-Allow-Origin" (headers (response (snd out_s)))
           = None)
  /\ (status (response (snd pre_s)) = 204
      /\ sent (snd pre_s) = []
      /\ header "Access-Control-Allow-Methods" (headers (response (snd pre_s)))
           = Some "POST")
  /\ (fst out_r = fst (rest_r ∅ r)
      /\ status (response (snd out_r)) = status (response (snd (rest_r ∅ r)))
      /\ content (response (snd out_r)) = content (response (snd (rest_r ∅ r)))
      /\ sent (snd out_r) = sent (snd (rest_r ∅ r))
      /\ header "Access-Control-Allow-Origin" (headers (response (snd out_r)))
           = Some "*").
Proof.
  intros q p r rest_s out_s pre_s rest_r out_r.
  split; [discriminate|]. split; [reflexivity|]. split; [discriminate|].
  apply (C9_cors_sets_headers_only Sample.trim Sample.escape Sample.isEmail
           Sample.normalizeEmail Sample.secureEnv Sample.delivering ∅ q p
           Sample.resendEnv Sample.delivering r);
    first [discriminate | reflexivity].
Defined.

Lemma C10_email_without_includes_throws_witness :
  let r := Sample.first (Sample.booking (VStr "Jane Doe") (VNum "42")) in
  truthy (prop "fullName" (body r)) = true
  /\ truthy (prop "serviceType" (body r)) = true
  /\ truthy (prop "preferredDate" (body r)) = true
  /\ truthy (prop "preferredTime" (body r)) = true
  /\ truthy (prop "email" (body r)) = true
  /\ Resend.isString (prop "email" (body r)) = false
  /\ Resend.validateBooking (body r) = Throw TypeError
  /\ (Resend.lacksIncludes (prop "email" (body r)) = true ->
      Resend.validateBooking (body r) = Throw TypeError
      /\ Resend.validated Sample.resendEnv Sample.delivering r
         = uncaught TypeError
      /\ sent (Resend.validated Sample.resendEnv Sample.delivering r) = []).
Proof.
  intros r. do 6 (split; [reflexivity|]).
  apply (C10_email_without_includes_throws Sample.resendEnv
           Sample.delivering r); reflexivity.
Defined.

(* ===================================================================== *)
(** ** Further properties of server.js                                    *)
(* ===================================================================== *)

Set Warnings "-clear-no-such-hyp".

Lemma validateBooking_cases (b : list (string * Val)) :
  Resend.validateBooking b =
    if Outcome.allPresent b
    then match call_includes (prop "email" b) "@" with
         | Throw e => Throw e
         | Normal false =>
             Normal (Resend.Respond 400
                       (VObj [("error", VStr "Invalid email format")]))
         | Normal true => Normal Resend.Next
         end
    else Normal (Resend.Respond 400
                   (VObj [("error", VStr "Missing required fields")])).
Proof.
  unfold Resend.validateBooking, Outcome.allPresent, Outcome.required.
  cbn [forallb].
  destruct (truthy (prop "fullName" b)), (truthy (prop "email" b)),
           (truthy (prop "serviceType" b)), (truthy (prop "preferredDate" b)),
           (truthy (prop "preferredTime" b)); reflexivity.
Qed.


(** X1: a payload whose five required properties are truthy and whose
    email is a string without an at-sign is answered 400 "Invalid email
    format", and nothing is dispatched for it. *)
Theorem Resend_email_without_at_rejected
  (env : Resend.Env) (send : Transport)
  (r : Request (list (string * Val))) (s : string) :
  Outcome.allPresent (body r) = true ->
  prop "email" (body r) = VStr s ->
  includes "@" s = false ->
  Resend.validated env send r
    = reply 400 (Json (VObj [("error", VStr "Invalid email format")]))
  /\ sent (Resend.validated env send r) = [].
Proof.
  intros Hall Hs Hno.
  assert (Resend.validated env send r
          = reply 400 (Json (VObj [("error", VStr "Invalid email format")])))
    as ->; [|done].
  unfold Resend.validated.
  rewrite validateBooking_cases, Hall, Hs. cbn [call_includes].
  by rewrite Hno.
Qed.


Lemma ToString_None_truthy (v : Val) : ToString v = None -> truthy v = true.
Proof. destruct v as [| |[]| | | |]; done. Qed.

(** X3: when one of the eight properties the handler interpolates cannot
    be converted to a string (an object that carries its own [toString]
    property, or an array holding one), the template literal throws inside
    the try block: the request is answered with the generic 500 and the
    collaborator is never called. *)
Theorem Resend_unrenderable_field
  (env : Resend.Env) (send : Transport) (b : list (string * Val)) (k : string) :
  In k Outcome.fields ->
  ToString (prop k b) = None ->
  Resend.booking env send b = mkResult Resend.sendFailure [].
Proof.
  intros Hk Hbad.
  assert (Resend.adminMail env b = None) as Hnone.
  { pose proof (ToString_None_truthy _ Hbad) as Htruthy.
    unfold Resend.adminMail, or.
    destruct (ToString (JS.env (Resend.FROM_EMAIL env)));
      cbn [mbind option_bind]; [|done].
    repeat (destruct Hk as [<-|Hk]; [
      rewrite ?Htruthy, Hbad;
      repeat match goal with
             | |- context [ToString ?v ≫= _] =>
                 destruct (ToString v); cbn [mbind option_bind]; try done
             end; done |]).
    destruct Hk. }
  unfold Resend.booking. by rewrite Hnone.
Qed.

Lemma getOwn_snoc (k k' : string) (v : Val) (ps : list (string * Val)) :
  getOwn k (ps ++ [(k', v)]) = if String.eqb k k' then Some v else getOwn k ps.
Proof.
  induction ps as [|[k0 v0] ps IH].
  - cbn [app getOwn]. by destruct (String.eqb k k').
  - cbn [app getOwn]. rewrite IH. by destruct (String.eqb k k').
Qed.

Lemma prop_snoc (k k' : string) (v : Val) (ps : list (string * Val)) :
  prop k (ps ++ [(k', v)]) = if String.eqb k k' then v else prop k ps.
Proof. unfold prop. rewrite getOwn_snoc. by destruct (String.eqb k k'). Qed.

Lemma or_or (v d : Val) : truthy d = true -> or (or v d) d = or v d.
Proof. intros Hd. unfold or. destruct (truthy v) eqn:Hv; by rewrite ?Hv, ?Hd. Qed.

(** X4: the placeholders of the admin mail.  A phone, organization or notes
    value that is absent or falsy is mailed exactly as if the payload had
    said "Not provided", "Not provided" and "None": writing
    [phone || 'Not provided'] and its two companions into the payload
    beforehand changes nothing about the mail. *)
Theorem Resend_placeholders (env : Resend.Env) (b : list (string * Val)) :
  Resend.adminMail env b =
  Resend.adminMail env
    (b ++ [("phone", or (prop "phone" b) (VStr "Not provided"))]
       ++ [("organization", or (prop "organization" b) (VStr "Not provided"))]
       ++ [("notes", or (prop "notes" b) (VStr "None"))]).
Proof.
  unfold Resend.adminMail.
  rewrite !app_assoc, !prop_snoc.
  cbn [String.eqb Ascii.eqb Bool.eqb].
  by rewrite !or_or.
Qed.


(** X6: server.js starts listening exactly when RESEND_API_KEY, FROM_EMAIL
    and ADMIN_EMAIL are all set and non-empty, on PORT when that is set and
    non-empty and on 5000 otherwise; in every other case it exits with
    code 1. *)
Theorem Resend_main_listens_iff_configured
  (env : Resend.Env) (send : Transport) :
  let missing := Resend.unset (Resend.RESEND_API_KEY env)
                 \/ Resend.unset (Resend.FROM_EMAIL env)
                 \/ Resend.unset (Resend.ADMIN_EMAIL env) in
  let port := match Resend.PORT env with
              | Some p => if String.eqb p "" then VNum "5000" else VStr p
              | None => VNum "5000"
              end in
  (Resend.main env send = Exited 1 <-> missing)
  /\ (Resend.main env send = Listening port (Resend.app env send)
        <-> ~ missing).
Proof.
  assert (Hunset : forall o, truthy (JS.env o) = false <-> Resend.unset o).
  { intros [s|]; unfold Resend.unset; cbn [JS.env truthy].
    - destruct (String.eqb_spec s ""); naive_solver.
    - naive_solver. }
  assert (Hport : or (JS.env (Resend.PORT env)) (VNum "5000")
                  = match Resend.PORT env with
                    | Some p => if String.eqb p "" then VNum "5000" else VStr p
                    | None => VNum "5000"
                    end).
  { unfold or. destruct (Resend.PORT env) as [p|]; cbn [JS.env truthy]; [|done].
    by destruct (String.eqb p ""). }
  cbv zeta. unfold Resend.main. rewrite Hport.
  pose proof (Hunset (Resend.RESEND_API_KEY env)) as H1.
  pose proof (Hunset (Resend.FROM_EMAIL env)) as H2.
  pose proof (Hunset (Resend.ADMIN_EMAIL env)) as H3.
  destruct (truthy (JS.env (Resend.RESEND_API_KEY env))),
           (truthy (JS.env (Resend.FROM_EMAIL env))),
           (truthy (JS.env (Resend.ADMIN_EMAIL env)));
    cbn [negb orb]; naive_solver.
Qed.

(* ===================================================================== *)
(** ** Further properties of server-secure.js                             *)
(* ===================================================================== *)

Section SecureMore.

Variable trim : string -> string.
Variable escape : string -> string.
Variable isEmail : string -> bool.
Variable normalizeEmail : string -> option string.




(** X9: the handler of server-secure.js answers 200 exactly when the form
    passed validation and both mails were delivered, 400 exactly when
    validation found an error, and 500 in the remaining cases; a 200 means
    exactly two sends, both delivered. *)
Theorem Secure_status_cases
  (env : Secure.Env) (send : Transport) (f : Secure.Form) :
  let out := Secure.booking trim escape isEmail normalizeEmail env send f in
  let c := Secure.sanitize trim escape normalizeEmail f in
  (status (response out) = 200
     <-> Secure.errors trim isEmail f = []
         /\ exists id1 id2,
              sent out = [(Secure.visitorMail env c, Delivered id1);
                          (Secure.companyMail env c, Delivered id2)])
  /\ (status (response out) = 400 <-> Secure.errors trim isEmail f <> [])
  /\ In (status (response out)) [200; 400; 500].
Proof.
  cbv zeta. unfold Secure.booking.
  destruct (Secure.errors trim isEmail f) as [|e es]; [|naive_solver].
  destruct (send 0 _) as [id1|e1]; [|naive_solver].
  destruct (send 1 _) as [id2|e2]; [|naive_solver].
  cbn [response status sent]. split; [|naive_solver].
  split; [|done]. intros _. split; [done|]. by exists id1, id2.
Qed.

End SecureMore.

(* ===================================================================== *)
(** ** Properties of whole requests, on both servers                      *)
(* ===================================================================== *)

Lemma Resend_booking_cases
  (env : Resend.Env) (send : Transport) (b : list (string * Val)) :
  Resend.booking env send b = mkResult Resend.sendFailure []
  \/ (exists m e, Resend.booking env send b
                  = mkResult Resend.sendFailure [(m, Failed e)])
  \/ (exists m id ps,
        Resend.booking env send b
          = mkResult (mkResponse 200 [] (Json (VObj ps))) [(m, Delivered id)]
        /\ hasOwn "error" ps = false).
Proof.
  unfold Resend.booking.
  destruct (Resend.adminMail env b) as [m|]; [|by left].
  destruct (send 0 m) as [id|e]; right; [right|left]; eauto.
Qed.

Lemma Resend_validated_cases
  (env : Resend.Env) (send : Transport) (r : Request (list (string * Val))) :
  Resend.validated env send r = reply 500 Page
  \/ (exists msg, Resend.validated env send r
                  = reply 400 (Json (VObj [("error", VStr msg)])))
  \/ Resend.validated env send r = Resend.booking env send (body r).
Proof.
  unfold Resend.validated. rewrite validateBooking_cases.
  destruct (Outcome.allPresent (body r)); [|right; left; eauto].
  destruct (call_includes (prop "email" (body r)) "@") as [[]|e];
    [by right; right | right; left; eauto | by left].
Qed.

Section Whole.

Variable toISOString : Z -> string.
Variable trim : string -> string.
Variable escape : string -> string.
Variable isEmail : string -> bool.
Variable normalizeEmail : string -> option string.

Lemma Secure_booking_cases
  (env : Secure.Env) (send : Transport) (f : Secure.Form) :
  let out := Secure.booking trim escape isEmail normalizeEmail env send f in
  (exists ps, out = reply 400 (Json (VObj ps)) /\ hasOwn "error" ps = true)
  \/ (exists m e, out = mkResult Secure.sendFailure [(m, Failed e)])
  \/ (exists m1 id m2 e,
        out = mkResult Secure.sendFailure [(m1, Delivered id); (m2, Failed e)])
  \/ (exists m1 id1 m2 id2 ps,
        out = mkResult (mkResponse 200 [] (Json (VObj ps)))
                       [(m1, Delivered id1); (m2, Delivered id2)]
        /\ hasOwn "error" ps = false).
Proof.
  cbv zeta. unfold Secure.booking.
  destruct (Secure.errors trim isEmail f) as [|e es]; [|left; eauto].
  destruct (send 0 _) as [id1|e1]; [|right; left; eauto].
  destruct (send 1 _) as [id2|e2]; right; right; [right|left].
  - do 5 eexists. split; [reflexivity|]. reflexivity.
  - eauto.
Qed.

(** Every path through the stack of server.js. *)
Lemma Resend_site_cases
  (env : Resend.Env) (send : Transport) (route : Site.Route)
  (st : Store) (r : Request (list (string * Val))) :
  let st' := fst (Site.resend toISOString env send route st r) in
  let out := snd (Site.resend toISOString env send route st r) in
  (st' = st /\ exists hs, out = mkResult (mkResponse 204 hs Empty) [])
  \/ exists res,
       out = withHeaders (configureOrigin corsDefaults r) res
       /\ ((st' = st /\ (res = reply 413 Page \/ res = reply 404 Page
                         \/ res = Site.resendHealth toISOString r))
           \/ (Outcome.reachesRoute defaultLimit route r
               /\ (res = reply 429 (Json Resend.limiterMessage)
                   \/ res = Resend.validated env send r))).
Proof.
  cbv zeta. unfold Site.resend, cors, json, Outcome.reachesRoute.
  destruct (Z.ltb_spec defaultLimit (bodyBytes r)) as [Hbig|Hfits].
  { destruct (method r); [right|right|left|right]; eauto 10. }
  destruct route.
  - unfold post, Resend.route, rateLimit.
    destruct (increment st (ip r) (now r)) as [st1 n].
    destruct (method r) eqn:Hm; [right|right|left|right]; eauto 10.
    destruct (Nat.ltb max n); eexists; (split; [reflexivity|]); right; eauto.
  - unfold Site.get.
    destruct (method r); [right|right|left|right]; eauto 10.
  - destruct (method r); [right|right|left|right]; eauto 10.
Qed.

(** Every path through the stack of server-secure.js. *)
Lemma Secure_site_cases
  (env : Secure.Env) (NODE_ENV : option string) (send : Transport)
  (route : Site.Route) (st : Store) (q : Request Secure.Form) :
  let site := Site.secure toISOString trim escape isEmail normalizeEmail
                env NODE_ENV send route in
  let st' := fst (site st q) in
  let out := snd (site st q) in
  (st' = st /\ exists hs, out = mkResult (mkResponse 204 hs Empty) [])
  \/ exists res,
       out = withHeaders (configureOrigin Secure.corsOptions q) res
       /\ ((st' = st /\ (res = reply 413 Page \/ res = reply 404 Page
                         \/ res = Site.secureHealth toISOString env NODE_ENV q))
           \/ (Outcome.reachesRoute Secure.bodyLimit route q
               /\ (res = reply 429 (Json Secure.limiterMessage)
                   \/ res = Secure.booking trim escape isEmail normalizeEmail
                              env send (body q)))).
Proof.
  cbv zeta. unfold Site.secure, cors, json, Outcome.reachesRoute.
  destruct (Z.ltb_spec Secure.bodyLimit (bodyBytes q)) as [Hbig|Hfits].
  { destruct (method q); [right|right|left|right]; eauto 10. }
  destruct route.
  - unfold post, Secure.route, rateLimit.
    destruct (increment st (ip q) (now q)) as [st1 n].
    destruct (method q) eqn:Hm; [right|right|left|right]; eauto 10.
    destruct (Nat.ltb max n); eexists; (split; [reflexivity|]); right; eauto.
  - unfold Site.get.
    destruct (method q); [right|right|left|right]; eauto 10.
  - destruct (method q); [right|right|left|right]; eauto 10.
Qed.

Ltac resend_leaves env send route st r :=
  let Hout := fresh "Hout" in
  let Hres := fresh "Hres" in
  let Hst := fresh "Hst" in
  let Hreach := fresh "Hreach" in
  let res := fresh "res" in
  let hs := fresh "hs" in
  destruct (Resend_site_cases env send route st r)
    as [[Hst (hs & Hout)] | (res & Hout & [[Hst Hres] | [Hreach Hres]])];
  rewrite ?Hout; rewrite ?Hst;
  [ | destruct Hres as [-> | [-> | ->]]
    | destruct Hres as [-> | ->];
      [ | destruct (Resend_validated_cases env send r)
            as [-> | [(? & ->) | ->]];
          [ | | destruct (Resend_booking_cases env send (body r))
                  as [-> | [(? & ? & ->) | (? & ? & ? & -> & ?)]] ] ] ].

Ltac secure_leaves env nodeEnv send route st q :=
  let Hout := fresh "Hout" in
  let Hres := fresh "Hres" in
  let Hst := fresh "Hst" in
  let Hreach := fresh "Hreach" in
  let res := fresh "res" in
  let hs := fresh "hs" in
  destruct (Secure_site_cases env nodeEnv send route st q)
    as [[Hst (hs & Hout)] | (res & Hout & [[Hst Hres] | [Hreach Hres]])];
  rewrite ?Hout; rewrite ?Hst;
  [ | destruct Hres as [-> | [-> | ->]]
    | destruct Hres as [-> | ->];
      [ | destruct (Secure_booking_cases env send (body q))
            as [(? & -> & ?) | [(? & ? & ->) | [(? & ? & ? & ? & ->)
               | (? & ? & ? & ? & ? & -> & ?)]]] ] ].

(** X10: only a POST to the booking path whose body fits the parser's
    limit (102400 bytes on server.js, 10240 on server-secure.js) gets as
    far as the rate limiter.  Every other request, whatever its path,
    method or size, leaves the limiter's counters as they were and has no
    mail dispatched. *)
Theorem only_fitting_posts_reach_the_route
  (env_r : Resend.Env) (send_r : Transport)
  (env_s : Secure.Env) (NODE_ENV : option string) (send_s : Transport)
  (route : Site.Route) (st : Store)
  (r : Request (list (string * Val))) (q : Request Secure.Form) :
  let resend := Site.resend toISOString env_r send_r route in
  let secure := Site.secure toISOString trim escape isEmail normalizeEmail
                  env_s NODE_ENV send_s route in
  (Outcome.reachesRoute defaultLimit route r
   \/ (fst (resend st r) = st /\ sent (snd (resend st r)) = []))
  /\ (Outcome.reachesRoute Secure.bodyLimit route q
      \/ (fst (secure st q) = st /\ sent (snd (secure st q)) = [])).
Proof.
  cbv zeta. split.
  - resend_leaves env_r send_r route st r; try (by left); by right.
  - secure_leaves env_s NODE_ENV send_s route st q; try (by left); by right.
Qed.



(** X13: the health probe.  A GET to the health path whose body fits the
    parser's limit is answered 200 with the fixed status text and the
    clock's reading, whatever the limiter's counters hold for the caller
    and whatever the mail collaborator would do; it leaves the counters
    alone and dispatches nothing.  On server-secure.js the body also names
    the port the process listens on and the environment name, which is
    "development" unless NODE_ENV says otherwise. *)
Theorem health_probe
  (env_r : Resend.Env) (send_r : Transport)
  (env_s : Secure.Env) (NODE_ENV : option string) (send_s : Transport)
  (st : Store)
  (r : Request (list (string * Val))) (q : Request Secure.Form) :
  method r = GET -> (bodyBytes r <= 102400)%Z ->
  method q = GET -> (bodyBytes q <= 10240)%Z ->
  let out_r := Site.resend toISOString env_r send_r Site.HealthCheck st r in
  let out_s := Site.secure toISOString trim escape isEmail normalizeEmail
                 env_s NODE_ENV send_s Site.HealthCheck st q in
  (fst out_r = st /\ sent (snd out_r) = []
   /\ status (response (snd out_r)) = 200
   /\ content (response (snd out_r))
      = Json (VObj [("status", VStr "Server is running");
                    ("timestamp", VStr (toISOString (now r)))]))
  /\ (fst out_s = st /\ sent (snd out_s) = []
      /\ status (response (snd out_s)) = 200
      /\ exists port serve,
           Secure.main trim escape isEmail normalizeEmail env_s send_s
             = Listening port serve
           /\ content (response (snd out_s))
              = Json (VObj [("status", VStr "Server is running");
                            ("timestamp", VStr (toISOString (now q)));
                            ("port", port);
                            ("environment",
                             match NODE_ENV with
                             | Some e => if String.eqb e "" then
                                           VStr "development" else VStr e
                             | None => VStr "development"
                             end)])).
Proof.
  intros Hr Hfit_r Hq Hfit_q. cbv zeta.
  unfold Site.resend, Site.secure, cors, json, Site.get.
  change defaultLimit with 102400%Z. change Secure.bodyLimit with 10240%Z.
  rewrite Hr, Hq.
  destruct (Z.ltb_spec 102400 (bodyBytes r)); [lia|].
  destruct (Z.ltb_spec 10240 (bodyBytes q)); [lia|].
  split; [done|]. cbn [fst snd withHeaders response status content sent
                       Site.secureHealth reply].
  repeat split. do 2 eexists. split; [reflexivity|].
  do 5 f_equal. unfold or. destruct NODE_ENV as [e|]; cbn [JS.env truthy]; [|done].
  by destruct (String.eqb e "").
Qed.

End Whole.

(** The booking path of a site is the stack the claims speak of. *)
Lemma site_booking_is_app (toISOString : Z -> string)
  (trim escape : string -> string) (isEmail : string -> bool)
  (normalizeEmail : string -> option string)
  (env_r : Resend.Env) (env_s : Secure.Env) (NODE_ENV : option string)
  (send : Transport) :
  Site.resend toISOString env_r send Site.Booking = Resend.app env_r send
  /\ Site.secure toISOString trim escape isEmail normalizeEmail env_s NODE_ENV
       send Site.Booking
     = Secure.app trim escape isEmail normalizeEmail env_s send.
Proof. split; reflexivity. Qed.

(** X14: [validateBooking] looks at the five required properties and at
    nothing else: adding any other property to a payload, with any value,
    leaves its verdict unchanged. *)
Theorem Resend_validation_ignores_other_properties
  (b : list (string * Val)) (k : string) (v : Val) :
  ~ In k Outcome.required ->
  Resend.validateBooking (b ++ [(k, v)]) = Resend.validateBooking b.
Proof.
  intros Hk. unfold Resend.validateBooking. rewrite !prop_snoc.
  assert (forall name, In name Outcome.required -> String.eqb name k = false)
    as Hne.
  { intros name Hin. apply String.eqb_neq. intros ->. contradiction. }
  rewrite !Hne; [reflexivity | | | | |];
    unfold Outcome.required; cbn [In]; auto 10.
Qed.

(** *** The further properties at concrete requests *)

Lemma Resend_email_without_at_rejected_witness :
  let r := Sample.first Outcome.noAt in
  Outcome.allPresent (body r) = true
  /\ prop "email" (body r) = VStr "jane.x.com"
  /\ includes "@" "jane.x.com" = false
  /\ Resend.validated Sample.resendEnv Sample.delivering r
     = reply 400 (Json (VObj [("error", VStr "Invalid email format")]))
  /\ sent (Resend.validated Sample.resendEnv Sample.delivering r) = [].
Proof.
  intros r. do 3 (split; [reflexivity|]).
  apply (Resend_email_without_at_rejected Sample.resendEnv Sample.delivering
           r "jane.x.com"); reflexivity.
Defined.

Lemma Resend_unrenderable_field_witness :
  In "notes" Outcome.fields
  /\ ToString (prop "notes" Outcome.shadowed) = None
  /\ Resend.validateBooking Outcome.shadowed = Normal Resend.Next
  /\ Resend.booking Sample.resendEnv Sample.delivering Outcome.shadowed
     = mkResult Resend.sendFailure [].
Proof.
  split; [do 7 right; left; reflexivity|].
  split; [reflexivity|]. split; [reflexivity|].
  apply (Resend_unrenderable_field Sample.resendEnv Sample.delivering
           Outcome.shadowed "notes").
  - do 7 right; left; reflexivity.
  - reflexivity.
Defined.

Lemma health_probe_witness :
  let st := fst (run (Resend.route Sample.resendEnv Sample.delivering) ∅
                   (Sample.first Sample.jane :: Sample.following Sample.jane
                    ++ [Sample.sixth Sample.jane])) in
  let r := Outcome.ping Sample.jane in
  let q := Outcome.ping Sample.janeForm in
  let out_r := Site.resend Outcome.clock Sample.resendEnv Sample.failing
                 Site.HealthCheck st r in
  let out_s := Site.secure Outcome.clock Sample.trim Sample.escape
                 Sample.isEmail Sample.normalizeEmail Sample.unconfigured
                 None Sample.failing Site.HealthCheck st q in
  method r = GET /\ (bodyBytes r <= 102400)%Z
  /\ method q = GET /\ (bodyBytes q <= 10240)%Z
  /\ (fst out_r = st /\ sent (snd out_r) = []
      /\ status (response (snd out_r)) = 200
      /\ content (response (snd out_r))
         = Json (VObj [("status", VStr "Server is running");
                       ("timestamp", VStr "1970-01-01T00:07:30.000Z")]))
  /\ (fst out_s = st /\ sent (snd out_s) = []
      /\ status (response (snd out_s)) = 200
      /\ exists port serve,
           Secure.main Sample.trim Sample.escape Sample.isEmail
             Sample.normalizeEmail Sample.unconfigured Sample.failing
             = Listening port serve
           /\ content (response (snd out_s))
              = Json (VObj [("status", VStr "Server is running");
                            ("timestamp", VStr "1970-01-01T00:07:30.000Z");
                            ("port", port);
                            ("environment", VStr "development")])).
Proof.
  intros st r q out_r out_s.
  split; [reflexivity|]. split; [discriminate|].
  split; [reflexivity|]. split; [discriminate|].
  apply (health_probe Outcome.clock Sample.trim Sample.escape Sample.isEmail
           Sample.normalizeEmail Sample.resendEnv Sample.failing
           Sample.unconfigured None Sample.failing st r q);
    first [reflexivity | discriminate].
Defined.

Lemma Resend_validation_ignores_other_properties_witness :
  ~ In "notes" Outcome.required
  /\ Resend.validateBooking
       (Sample.jane ++ [("notes", VObj [("toString", VNum "1")])])
     = Resend.validateBooking Sample.jane.
Proof.
  assert (~ In "notes" Outcome.required) as Hk.
  { unfold Outcome.required. cbn [In]. intros [H|[H|[H|[H|[H|[]]]]]];
      discriminate H. }
  split; [exact Hk|].
  apply (Resend_validation_ignores_other_properties Sample.jane "notes"
           (VObj [("toString", VNum "1")]) Hk).
Defined.
